(** * summarize.py: a shallow embedding and its verified properties

    The program is a command-line driver: it reads a file (plain text, PDF or
    Word document), sends the text to a chat-completion service and prints the
    summary.  Everything the script touches outside its own code (the process
    environment, the file system, the package importer, the PDF and Word
    libraries, the remote service) is gathered in a record [World] of oracles;
    the script itself is written in a small monad that threads the number of
    [pip] runs performed so far, records every observable action in a trace,
    and can stop early on [sys.exit] or on an exception nobody catches. *)

From Stdlib Require Import List Bool Arith ZArith NArith Lia.
From Stdlib Require Import Strings.String Strings.Ascii Strings.Byte.
From Stdlib Require Import Numbers.DecimalString QArith.
Import ListNotations.
Local Close Scope Q_scope.
Local Open Scope nat_scope.

(** ** Python values *)

(** A Python [str] is a sequence of Unicode code points. *)
Definition char := N.
Definition str := list char.

(** An ASCII literal of the source, as a [str]. *)
Definition lit (s : string) : str := map N_of_ascii (list_ascii_of_string s).

Definition LF : char := 10%N.
Definition CR : char := 13%N.

Fixpoint str_eqb (a b : str) : bool :=
  match a, b with
  | [], [] => true
  | x :: a', y :: b' => N.eqb x y && str_eqb a' b'
  | _, _ => false
  end.

(** [sep.join(parts)] *)
Fixpoint join (sep : str) (parts : list str) : str :=
  match parts with
  | [] => []
  | [p] => p
  | p :: rest => p ++ sep ++ join sep rest
  end.

(** [c * n] for a one-character string [c]. *)
Definition times (c : string) (n : nat) : str := List.concat (repeat (lit c) n).

(** [str.isspace] on one code point: the characters [str.strip()] removes. *)
Definition isspace (c : char) : bool :=
  ((9 <=? c) && (c <=? 13) || (28 <=? c) && (c <=? 32)
   || (c =? 133) || (c =? 160) || (c =? 5760)
   || (8192 <=? c) && (c <=? 8202)
   || (c =? 8232) || (c =? 8233) || (c =? 8239) || (c =? 8287)
   || (c =? 12288))%N.

Fixpoint lstrip (s : str) : str :=
  match s with
  | c :: s' => if isspace c then lstrip s' else s
  | [] => []
  end.

Definition rstrip (s : str) : str := rev (lstrip (rev s)).

(** [s.strip()] *)
Definition strip (s : str) : str := rstrip (lstrip s).

(** Truth value of a [str]: the empty string is false. *)
Definition truthy (s : str) : bool :=
  match s with [] => false | _ :: _ => true end.

(** Truth value of an [Optional[str]]: [None] and [''] are false. *)
Definition truthy_opt (o : option str) : bool :=
  match o with None => false | Some s => truthy s end.

(** [str.lower] and [str.upper] on the ASCII letters.  The script applies
    them to a file suffix that is then compared with ['.pdf'], ['.docx'] and
    ['.doc'], and to the [--detail] choice; other code points are left as
    they are. *)
Definition lower_char (c : char) : char :=
  if ((65 <=? c) && (c <=? 90))%N then (c + 32)%N else c.
Definition upper_char (c : char) : char :=
  if ((97 <=? c) && (c <=? 122))%N then (c - 32)%N else c.
Definition lower (s : str) : str := map lower_char s.
Definition upper (s : str) : str := map upper_char s.

(** A [dict] literal with [str] keys, and [dict.get(key, default)]. *)
Definition dict := list (str * str).

Fixpoint dict_get (d : dict) (k : str) (default : str) : str :=
  match d with
  | [] => default
  | (k', v) :: d' => if str_eqb k' k then v else dict_get d' k default
  end.

(** ** The codecs of [read_text_file]

    [open(path, 'r', encoding=e).read()] decodes the bytes of the file with
    the codec [e] (raising [UnicodeDecodeError] on a byte sequence outside
    the codec) and translates the line endings [\r\n] and [\r] to [\n]. *)

Inductive encoding := UTF8 | LATIN1 | CP1252 | ISO8859_1.

Definition continuation (b : N) : bool := ((128 <=? b) && (b <=? 191))%N.

(** Strict UTF-8: shortest form only, no surrogates, at most U+10FFFF. *)
Fixpoint utf8_decode (bs : list N) : option str :=
  match bs with
  | [] => Some []
  | b0 :: r0 =>
    if (b0 <=? 127)%N then option_map (cons b0) (utf8_decode r0)
    else match r0 with
    | [] => None
    | b1 :: r1 =>
      if ((194 <=? b0) && (b0 <=? 223))%N then
        if continuation b1
        then option_map (cons ((b0 - 192) * 64 + (b1 - 128))%N) (utf8_decode r1)
        else None
      else match r1 with
      | [] => None
      | b2 :: r2 =>
        if ((224 <=? b0) && (b0 <=? 239))%N then
          if continuation b1 && continuation b2
             && negb ((b0 =? 224) && (b1 <? 160))%N
             && negb ((b0 =? 237) && (160 <=? b1))%N
          then option_map
                 (cons ((b0 - 224) * 4096 + (b1 - 128) * 64 + (b2 - 128))%N)
                 (utf8_decode r2)
          else None
        else match r2 with
        | [] => None
        | b3 :: r3 =>
          if ((240 <=? b0) && (b0 <=? 244))%N then
            if continuation b1 && continuation b2 && continuation b3
               && negb ((b0 =? 240) && (b1 <? 144))%N
               && negb ((b0 =? 244) && (144 <=? b1))%N
            then option_map
                   (cons ((b0 - 240) * 262144 + (b1 - 128) * 4096
                          + (b2 - 128) * 64 + (b3 - 128))%N)
                   (utf8_decode r3)
            else None
          else None
        end
      end
    end
  end.

(** Latin-1 (ISO-8859-1): byte [b] is code point [b]; every byte decodes. *)
Definition latin1_decode (bs : list N) : option str := Some bs.

(** Windows-1252: Latin-1 except for 0x80-0x9F; five bytes are undefined. *)
Definition cp1252_high : list (option char) :=
  [Some 8364; None; Some 8218; Some 402; Some 8222; Some 8230; Some 8224;
   Some 8225; Some 710; Some 8240; Some 352; Some 8249; Some 338; None;
   Some 381; None; None; Some 8216; Some 8217; Some 8220; Some 8221;
   Some 8226; Some 8211; Some 8212; Some 732; Some 8482; Some 353;
   Some 8250; Some 339; None; Some 382; Some 376]%N.

Definition cp1252_char (b : N) : option char :=
  if ((128 <=? b) && (b <=? 159))%N
  then nth (N.to_nat (b - 128)) cp1252_high None
  else Some b.

Fixpoint cp1252_decode (bs : list N) : option str :=
  match bs with
  | [] => Some []
  | b :: r =>
    match cp1252_char b, cp1252_decode r with
    | Some c, Some s => Some (c :: s)
    | _, _ => None
    end
  end.

Definition decode (e : encoding) (bs : list byte) : option str :=
  let ns := map Byte.to_N bs in
  match e with
  | UTF8 => utf8_decode ns
  | LATIN1 => latin1_decode ns
  | CP1252 => cp1252_decode ns
  | ISO8859_1 => latin1_decode ns
  end.

(** Universal newlines of text-mode reading. *)
Fixpoint translate_newlines (s : str) : str :=
  match s with
  | [] => []
  | c :: r =>
    if (c =? CR)%N then
      match r with
      | c' :: r' => if (c' =? LF)%N then LF :: translate_newlines r'
                    else LF :: translate_newlines r
      | [] => [LF]
      end
    else c :: translate_newlines r
  end.

(** [len(s)] and its rendering inside an f-string. *)
Definition len (s : str) : N := N.of_nat (List.length s).
Definition str_of_N (n : N) : str := lit (NilEmpty.string_of_uint (N.to_uint n)).

(** ** The world outside the script *)

Inductive library := PyPDF2 | Docx | Openai.

Record message := { role : str; content : str }.

(** The keyword arguments of [client.chat.completions.create]. *)
Record request := {
  req_model : str;
  req_messages : list message;
  req_temperature : Q
}.

(** An exception raised by a library, with the text [str(e)]: the handlers
    of the script tell [ImportError] from every other [Exception]. *)
Inductive exn :=
| ImportError (msg : str)
| OtherError (msg : str).

(** The namespace [parser.parse_args()] returns. *)
Record Args := {
  file_path : option str;
  detail : str;
  model : str;
  check_config : bool
}.

(** What [parser.parse_args()] does with a command line: it rejects it
    (message on the error stream, status 2), serves [-h] (help on standard
    output, status 0) or returns the namespace. *)
Inductive parsed :=
| Rejected (msg : str)
| HelpRequested
| Parsed (args : Args).

(** What the script can observe of its surroundings.  A failing library call
    is [inl e], with [e] the exception raised or its text. *)
Record World := {
  (** [os.environ.get(name)] *)
  environ : str -> option str;
  (** [str(Path(p))], [Path(p).exists()], [Path(p).is_file()],
      [Path(p).suffix] *)
  path_str : str -> str;
  path_exists : str -> bool;
  path_is_file : str -> bool;
  path_suffix : str -> str;
  (** the bytes [open(p)] gives, or the error of opening or reading *)
  file_bytes : str -> str + list byte;
  (** whether the import statement for the library succeeds once [pip] has
      run [n] times; it raises [ImportError] otherwise *)
  importable : library -> nat -> bool;
  (** the page texts PyPDF2 extracts, the paragraph texts python-docx
      extracts, or the exception raised on the way *)
  pdf_pages : str -> exn + list str;
  docx_paragraphs : str -> exn + list str;
  (** [OpenAI(api_key=k)]: the exception raised, if any *)
  client_init : str -> option exn;
  (** the call to the service: the text of the error raised (never an
      [ImportError]: the package is loaded by then), or
      [response.choices[0].message.content], which may be [None] *)
  completion : str -> request -> str + option str;
  (** the text [parser.print_help()] writes, made of the ASCII literals of
      the parser *)
  help_text : str;
  (** whether the encoding of standard output has the character; every
      encoding in use has the ASCII ones *)
  stdout_encodes : char -> bool;
  (** the text of the [RecursionError] the interpreter raises at its
      recursion limit *)
  recursion_error : str;
  (** [argparse] at work on the command line *)
  parse_args : list str -> parsed
}.

(** ** Observable actions *)

Inductive event :=
| Stdout (line : str)            (* print(line) *)
| Stderr (line : str)            (* print(line, file=sys.stderr) *)
| Pip                            (* os.system("... -m pip install ...") *)
| Import (lib : library)         (* an import statement is executed *)
| Stat (path : str)              (* Path.exists() or Path.is_file() *)
| Open (path : str)              (* the file is opened *)
| ApiCall (req : request)        (* client.chat.completions.create(...) *)
| Traceback (exc : str).         (* the traceback of an uncaught exception *)

(** File access: the path is inspected or the file is opened. *)
Definition is_file_access (e : event) : bool :=
  match e with Stat _ | Open _ => true | _ => false end.
Definition is_pip (e : event) : bool :=
  match e with Pip => true | _ => false end.
Definition is_import (l : library) (e : event) : bool :=
  match e, l with
  | Import PyPDF2, PyPDF2 | Import Docx, Docx | Import Openai, Openai => true
  | _, _ => false
  end.

Definition stdout_of (t : list event) : list str :=
  flat_map (fun e => match e with Stdout s => [s] | _ => [] end) t.
Definition stderr_of (t : list event) : list str :=
  flat_map (fun e => match e with Stderr s => [s] | _ => [] end) t.

(** ** The monad of the script

    A computation starts with the number of [pip] runs made so far and gives
    an outcome, the new number of runs and the actions it performed, in
    order. *)

Inductive outcome (A : Type) :=
| Ret (a : A)                    (* the function returns *)
| Exit (code : Z).               (* the process ends with this status *)

Arguments Ret {A} a.
Arguments Exit {A} code.

Definition M (A : Type) := nat -> outcome A * nat * list event.

Definition ret {A} (a : A) : M A := fun n => (Ret a, n, []).

(** The result of a computation, after the actions [pre]. *)
Definition prepend {A} (pre : list event) (r : outcome A * nat * list event)
  : outcome A * nat * list event :=
  let '(o, n, t) := r in (o, n, pre ++ t).

Definition bind {A B} (m : M A) (f : A -> M B) : M B :=
  fun n =>
    match m n with
    | (Ret a, n1, t1) => prepend t1 (f a n1)
    | (Exit c, n1, t1) => (Exit c, n1, t1)
    end.

Notation "x <- m ;; k" := (bind m (fun x => k))
  (at level 61, m at next level, right associativity).
Notation "m ;; k" := (bind m (fun _ => k))
  (at level 61, right associativity).

Definition emit (e : event) : M unit := fun n => (Ret tt, n, [e]).
Definition sys_exit {A} (code : Z) : M A := fun n => (Exit code, n, []).
Definition pip_runs : M nat := fun n => (Ret n, n, []).
Definition pip_install : M unit := fun n => (Ret tt, S n, [Pip]).

(** An exception that no handler catches: the interpreter prints the
    traceback on the error stream and the process ends with status 1. *)
Definition uncaught {A} (exc : str) : M A :=
  emit (Traceback exc) ;; sys_exit 1.

(** [print(s)] writes to standard output, and raises [UnicodeEncodeError],
    before anything is written, when the encoding of standard output lacks a
    character of [s].  None of the calls is under a [try] that would catch
    it. *)
Definition ascii (c : char) : bool := (c <? 128)%N.

Definition can_encode (w : World) (s : str) : bool :=
  forallb (fun c => ascii c || stdout_encodes w c) s.

Definition print (w : World) (s : str) : M unit :=
  if can_encode w s then emit (Stdout s)
  else uncaught (lit "UnicodeEncodeError").

(** [print(s, file=sys.stderr)]: the error stream replaces what it cannot
    encode and does not raise. *)
Definition eprint (s : str) : M unit := emit (Stderr s).

(** An import statement under [try]: [true] when it succeeds, [false] when
    it raises [ImportError]. *)
Definition try_import (w : World) (lib : library) : M bool :=
  n <- pip_runs ;;
  emit (Import lib) ;;
  ret (importable w lib n).

(** ** The script *)

Definition check_openai_available (w : World) : M bool :=
  ok <- try_import w Openai ;;
  if ok then ret true else ret false.

Definition install_dependencies (w : World) : M unit :=
  print w (lit "Installing required packages...") ;;
  pip_install ;;
  print w (lit "Dependencies installed successfully.").

Definition OPENAI_API_KEY : str := lit "OPENAI_API_KEY".

(** The value of an [Optional[str]] known not to be [None]. *)
Definition value (o : option str) : str :=
  match o with Some s => s | None => [] end.

Definition get_api_key (w : World) : M str :=
  let api_key := environ w OPENAI_API_KEY in
  if negb (truthy_opt api_key) then
    eprint (lit "ERROR: OPENAI_API_KEY environment variable not set.") ;;
    eprint (LF :: lit "Please set your API key:") ;;
    eprint (lit "  export OPENAI_API_KEY='sk-...'") ;;
    eprint (LF :: lit "Or add to your shell profile (~/.bashrc or ~/.zshrc) for persistence.") ;;
    sys_exit 1
  else ret (value api_key).

Definition encodings : list encoding := [UTF8; LATIN1; CP1252; ISO8859_1].

(** The [for encoding in encodings] loop of [read_text_file] and the two
    lines after it. *)
Fixpoint try_encodings (w : World) (file_path : str) (encs : list encoding)
  : M (option str) :=
  match encs with
  | [] =>
    eprint (lit "Unable to read file with common encodings") ;;
    ret None
  | encoding :: rest =>
    emit (Open file_path) ;;
    match file_bytes w file_path with
    | inl e => eprint (lit "Error reading file: " ++ e) ;; ret None
    | inr bs =>
      match decode encoding bs with
      | Some text => ret (Some (translate_newlines text))
      | None => try_encodings w file_path rest
      end
    end
  end.

Definition read_text_file (w : World) (file_path : str) : M (option str) :=
  try_encodings w file_path encodings.

(** [read_pdf], [read_docx] and [summarize_content] call themselves from
    their handler of [ImportError], which guards the whole body under [try].
    [fuel] is the number of nested calls the interpreter's recursion limit
    leaves room for: one level further the import itself raises
    [RecursionError], an [Exception] like any other, and the generic handler
    of that level reports it and returns [None]. *)
Fixpoint read_pdf (fuel : nat) (w : World) (file_path : str) : M (option str) :=
  match fuel with
  | O =>
    emit (Import PyPDF2) ;;
    eprint (lit "Error reading PDF: " ++ recursion_error w) ;;
    ret None
  | S fuel' =>
    ok <- try_import w PyPDF2 ;;
    if ok then
      emit (Open file_path) ;;
      match pdf_pages w file_path with
      | inr text_parts => ret (Some (join [LF; LF] text_parts))
      | inl (ImportError _) =>
        eprint (lit "PyPDF2 not installed. Installing...") ;;
        install_dependencies w ;;
        read_pdf fuel' w file_path
      | inl (OtherError e) =>
        eprint (lit "Error reading PDF: " ++ e) ;; ret None
      end
    else
      eprint (lit "PyPDF2 not installed. Installing...") ;;
      install_dependencies w ;;
      read_pdf fuel' w file_path
  end.

Fixpoint read_docx (fuel : nat) (w : World) (file_path : str) : M (option str) :=
  match fuel with
  | O =>
    emit (Import Docx) ;;
    eprint (lit "Error reading DOCX: " ++ recursion_error w) ;;
    ret None
  | S fuel' =>
    ok <- try_import w Docx ;;
    if ok then
      emit (Open file_path) ;;
      match docx_paragraphs w file_path with
      | inr text_parts => ret (Some (join [LF; LF] text_parts))
      | inl (ImportError _) =>
        eprint (lit "python-docx not installed. Installing...") ;;
        install_dependencies w ;;
        read_docx fuel' w file_path
      | inl (OtherError e) =>
        eprint (lit "Error reading DOCX: " ++ e) ;; ret None
      end
    else
      eprint (lit "python-docx not installed. Installing...") ;;
      install_dependencies w ;;
      read_docx fuel' w file_path
  end.

Definition read_file (fuel : nat) (w : World) (file_path : str) : M (option str) :=
  emit (Stat file_path) ;;
  if negb (path_exists w file_path) then
    eprint (lit "ERROR: File not found: " ++ path_str w file_path) ;;
    ret None
  else
    emit (Stat file_path) ;;
    if negb (path_is_file w file_path) then
      eprint (lit "ERROR: Path is not a file: " ++ path_str w file_path) ;;
      ret None
    else
      let suffix := lower (path_suffix w file_path) in
      if str_eqb suffix (lit ".pdf") then read_pdf fuel w file_path
      else if existsb (str_eqb suffix) [lit ".docx"; lit ".doc"] then
        (if str_eqb suffix (lit ".doc") then
           eprint (lit "WARNING: .doc format may not be fully supported. Consider converting to .docx")
         else ret tt) ;;
        read_docx fuel w file_path
      else read_text_file w file_path.

(** A triple-quoted literal, line by line. *)
Definition lines (l : list str) : str := join [LF] l.

Definition prompts : dict :=
  [ (lit "brief",
     lines [lit "You are a professional summarizer. Provide a concise summary in 2-3 sentences ";
            lit "highlighting only the most critical points. Be direct and factual."]);
    (lit "medium",
     lines [lit "You are a professional summarizer. Provide a clear summary in one well-structured ";
            lit "paragraph covering the main ideas, key takeaways, and most important information. ";
            lit "Be comprehensive but concise."]);
    (lit "detailed",
     lines [lit "You are a professional summarizer. Provide a comprehensive summary with ";
            lit "multiple paragraphs covering:";
            lit "1. Main themes and purpose";
            lit "2. Key points and arguments";
            lit "3. Important details and structure";
            lit "4. Conclusions or outcomes";
            lit "Be thorough while maintaining clarity."]) ].

(** [prompts.get(detail_level, prompts['medium'])] *)
Definition get_system_prompt (detail_level : str) : str :=
  dict_get prompts detail_level (dict_get prompts (lit "medium") []).

Definition max_chars : N := 100000.
Definition truncation_marker : str := [LF; LF] ++ lit "[Content truncated...]".
Definition user_prefix : str :=
  lit "Please summarize the following content:" ++ [LF; LF].
Definition temperature : Q := (3 # 10)%Q.

(** The handler [except Exception as e] of [summarize_content]. *)
Definition summary_failed (e : str) : M (option str) :=
  eprint (lit "ERROR: Failed to generate summary: " ++ e) ;;
  eprint (LF :: lit "Please check:") ;;
  eprint (lit "  1. Your API key is valid") ;;
  eprint (lit "  2. You have available API credits") ;;
  eprint (lit "  3. The OpenAI API service is accessible") ;;
  ret None.

Fixpoint summarize_content (fuel : nat) (w : World)
    (content detail_level model api_key : str) : M (option str) :=
  match fuel with
  | O =>
    emit (Import Openai) ;;
    summary_failed (recursion_error w)
  | S fuel' =>
    ok <- try_import w Openai ;;
    if ok then
      match client_init w api_key with
      | Some (ImportError _) =>
        eprint (lit "OpenAI package not installed. Installing...") ;;
        install_dependencies w ;;
        summarize_content fuel' w content detail_level model api_key
      | Some (OtherError e) => summary_failed e
      | None =>
        content <-
          (if (max_chars <? len content)%N then
             eprint (lit "NOTE: File is very large (" ++ str_of_N (len content)
                     ++ lit " chars). Truncating to " ++ str_of_N max_chars
                     ++ lit " chars.") ;;
             ret (firstn (N.to_nat max_chars) content ++ truncation_marker)
           else ret content) ;;
        let system_prompt := get_system_prompt detail_level in
        let req :=
          {| req_model := model;
             req_messages :=
               [ {| role := lit "system"; content := system_prompt |};
                 {| role := lit "user"; content := user_prefix ++ content |} ];
             req_temperature := temperature |} in
        emit (ApiCall req) ;;
        match completion w api_key req with
        | inr answer => ret answer
        | inl e => summary_failed e
        end
      end
    else
      eprint (lit "OpenAI package not installed. Installing...") ;;
      install_dependencies w ;;
      summarize_content fuel' w content detail_level model api_key
  end.

Definition CHECK : char := 10003%N.   (* U+2713 *)
Definition CROSS : char := 10007%N.   (* U+2717 *)

Definition rule : str := times "=" 60.

(** [parser.print_help()]: the help text is ASCII and is always written. *)
Definition print_help (w : World) : M unit := emit (Stdout (help_text w)).

(** [main] from the line after [parser.parse_args()], which has returned
    [args]. *)
Definition main (fuel : nat) (w : World) (args : Args) : M Z :=
  if check_config args then
    let api_key := environ w OPENAI_API_KEY in
    if truthy_opt api_key then
      print w (CHECK :: lit " OPENAI_API_KEY is set") ;;
      ok <- check_openai_available w ;;
      (if ok then print w (CHECK :: lit " OpenAI package is available")
       else print w (CROSS :: lit " OpenAI package not installed (will auto-install when needed)")) ;;
      ret 0%Z
    else
      print w (CROSS :: lit " OPENAI_API_KEY is not set") ;;
      print w (LF :: lit "Please set your API key:") ;;
      print w (lit "  export OPENAI_API_KEY='sk-...'") ;;
      ret 1%Z
  else if negb (truthy_opt (file_path args)) then
    print_help w ;;
    sys_exit 1
  else
    api_key <- get_api_key w ;;
    eprint (lit "Reading file: " ++ value (file_path args)) ;;
    content <- read_file fuel w (value (file_path args)) ;;
    match content with
    | None => sys_exit 1
    | Some content =>
      if negb (truthy (strip content)) then
        eprint (lit "ERROR: File appears to be empty or unreadable") ;;
        sys_exit 1
      else
        eprint (lit "File size: " ++ str_of_N (len content) ++ lit " characters") ;;
        eprint (lit "Generating " ++ detail args ++ lit " summary using "
                ++ model args ++ lit "...") ;;
        summary <- summarize_content fuel w content (detail args) (model args) api_key ;;
        match summary with
        | None => sys_exit 1
        | Some summary =>
          print w (LF :: rule) ;;
          print w (lit "SUMMARY (" ++ upper (detail args) ++ lit ")") ;;
          print w (rule ++ [LF]) ;;
          print w summary ;;
          print w (LF :: rule) ;;
          ret 0%Z
        end
    end.

(** [sys.exit(main())] once the arguments are parsed: the exit status of
    the process and what it did. *)
Definition run (fuel : nat) (w : World) (args : Args) : option Z * list event :=
  match main fuel w args 0 with
  | (Ret code, _, t) => (Some code, t)
  | (Exit code, _, t) => (Some code, t)
  end.

(** The whole script on a command line. *)
Definition script (fuel : nat) (w : World) (argv : list str)
  : option Z * list event :=
  match parse_args w argv with
  | Rejected msg => (Some 2%Z, [Stderr msg])
  | HelpRequested => (Some 0%Z, [Stdout (help_text w)])
  | Parsed args => run fuel w args
  end.

(** The values [argparse] lets through as [--detail]. *)
Definition choices : list str := [lit "brief"; lit "medium"; lit "detailed"].

(** ** Sample worlds

    Concrete surroundings on which the script is run in the examples below. *)

(** Nothing is installed, no file exists, no variable is set; standard
    output takes every character; no command line is accepted. *)
Definition bare_world : World :=
  {| environ := fun _ => None;
     path_str := fun p => p;
     path_exists := fun _ => false;
     path_is_file := fun _ => false;
     path_suffix := fun _ => [];
     file_bytes := fun _ => inl (lit "[Errno 2] No such file or directory");
     importable := fun _ _ => false;
     pdf_pages := fun _ => inl (OtherError (lit "Stream has ended unexpectedly"));
     docx_paragraphs := fun _ => inl (OtherError (lit "Package not found"));
     client_init := fun _ => None;
     completion := fun _ _ => inl (lit "Connection error.");
     help_text := lit "usage: summarize.py [-h] [file_path]";
     stdout_encodes := fun _ => true;
     recursion_error := lit "maximum recursion depth exceeded";
     parse_args := fun _ => Rejected (lit "summarize.py: error: unrecognized arguments") |}.

(** [w] with the environment variable [name] set to [v]. *)
Definition with_env (w : World) (name v : str) : World :=
  {| environ := fun k => if str_eqb k name then Some v else environ w k;
     path_str := path_str w; path_exists := path_exists w;
     path_is_file := path_is_file w; path_suffix := path_suffix w;
     file_bytes := file_bytes w; importable := importable w;
     pdf_pages := pdf_pages w; docx_paragraphs := docx_paragraphs w;
     client_init := client_init w; completion := completion w;
     help_text := help_text w; stdout_encodes := stdout_encodes w;
     recursion_error := recursion_error w; parse_args := parse_args w |}.

(** [w] with a regular file [p] of suffix [sfx] holding the bytes [bs];
    the PDF library reads them as one page, the Word library as one
    paragraph, both taken as Latin-1. *)
Definition with_file (w : World) (p sfx : str) (bs : list byte) : World :=
  {| environ := environ w; path_str := path_str w;
     path_exists := fun q => str_eqb q p || path_exists w q;
     path_is_file := fun q => str_eqb q p || path_is_file w q;
     path_suffix := fun q => if str_eqb q p then sfx else path_suffix w q;
     file_bytes := fun q => if str_eqb q p then inr bs else file_bytes w q;
     importable := importable w;
     pdf_pages := fun q => if str_eqb q p then inr [map Byte.to_N bs]
                           else pdf_pages w q;
     docx_paragraphs := fun q => if str_eqb q p then inr [map Byte.to_N bs]
                                 else docx_paragraphs w q;
     client_init := client_init w; completion := completion w;
     help_text := help_text w; stdout_encodes := stdout_encodes w;
     recursion_error := recursion_error w; parse_args := parse_args w |}.

(** [w] where importing any library succeeds once [pip] has run [k] times. *)
Definition installs_after (w : World) (k : nat) : World :=
  {| environ := environ w; path_str := path_str w;
     path_exists := path_exists w; path_is_file := path_is_file w;
     path_suffix := path_suffix w; file_bytes := file_bytes w;
     importable := fun _ n => k <=? n;
     pdf_pages := pdf_pages w; docx_paragraphs := docx_paragraphs w;
     client_init := client_init w; completion := completion w;
     help_text := help_text w; stdout_encodes := stdout_encodes w;
     recursion_error := recursion_error w; parse_args := parse_args w |}.

(** [w] where the service answers every request with [answer]. *)
Definition answering (w : World) (answer : str) : World :=
  {| environ := environ w; path_str := path_str w;
     path_exists := path_exists w; path_is_file := path_is_file w;
     path_suffix := path_suffix w; file_bytes := file_bytes w;
     importable := importable w;
     pdf_pages := pdf_pages w; docx_paragraphs := docx_paragraphs w;
     client_init := client_init w;
     completion := fun _ _ => inr (Some answer);
     help_text := help_text w; stdout_encodes := stdout_encodes w;
     recursion_error := recursion_error w; parse_args := parse_args w |}.

(** [w] with a standard output that has the ASCII characters only. *)
Definition ascii_stdout (w : World) : World :=
  {| environ := environ w; path_str := path_str w;
     path_exists := path_exists w; path_is_file := path_is_file w;
     path_suffix := path_suffix w; file_bytes := file_bytes w;
     importable := importable w;
     pdf_pages := pdf_pages w; docx_paragraphs := docx_paragraphs w;
     client_init := client_init w; completion := completion w;
     help_text := help_text w; stdout_encodes := fun _ => false;
     recursion_error := recursion_error w; parse_args := parse_args w |}.

(** [w] where building the client always raises [ImportError]. *)
Definition broken_client (w : World) : World :=
  {| environ := environ w; path_str := path_str w;
     path_exists := path_exists w; path_is_file := path_is_file w;
     path_suffix := path_suffix w; file_bytes := file_bytes w;
     importable := importable w;
     pdf_pages := pdf_pages w; docx_paragraphs := docx_paragraphs w;
     client_init := fun _ => Some (ImportError (lit "cannot import name 'x'"));
     completion := completion w;
     help_text := help_text w; stdout_encodes := stdout_encodes w;
     recursion_error := recursion_error w; parse_args := parse_args w |}.

Definition default_args (p : option str) : Args :=
  {| file_path := p; detail := lit "medium"; model := lit "gpt-4o-mini";
     check_config := false |}.

Definition check_config_args : Args :=
  {| file_path := None; detail := lit "medium"; model := lit "gpt-4o-mini";
     check_config := true |}.

(** A text file whose single byte 0x81 is neither UTF-8 nor Windows-1252. *)
Definition high_byte_world : World :=
  with_file bare_world (lit "a.txt") (lit ".txt") [x81].

(** ** The shape of the three operations that import a library

    [read_pdf], [read_docx] and [summarize_content] are written alike: the
    body is tried; on [ImportError] a line is printed, the dependencies are
    installed and the function calls itself; on any other [Exception] the
    error is reported and [None] returned. *)

(** What is sent in place of [content]. *)
Definition sent_content (content : str) : str :=
  if (max_chars <? len content)%N
  then firstn (N.to_nat max_chars) content ++ truncation_marker
  else content.

Definition request_for (content detail_level model : str) : request :=
  {| req_model := model;
     req_messages :=
       [ {| role := lit "system"; content := get_system_prompt detail_level |};
         {| role := lit "user";
            content := user_prefix ++ sent_content content |} ];
     req_temperature := temperature |}.

(** The three operations, and the library each one imports. *)
Inductive operation :=
| ReadPdf (file_path : str)
| ReadDocx (file_path : str)
| Summarize (content detail_level model api_key : str).

Definition perform (fuel : nat) (w : World) (op : operation) : M (option str) :=
  match op with
  | ReadPdf p => read_pdf fuel w p
  | ReadDocx p => read_docx fuel w p
  | Summarize c d m k => summarize_content fuel w c d m k
  end.

Definition library_of (op : operation) : library :=
  match op with
  | ReadPdf _ => PyPDF2
  | ReadDocx _ => Docx
  | Summarize _ _ _ _ => Openai
  end.

Definition not_installed (lib : library) : str :=
  match lib with
  | PyPDF2 => lit "PyPDF2 not installed. Installing..."
  | Docx => lit "python-docx not installed. Installing..."
  | Openai => lit "OpenAI package not installed. Installing..."
  end.

(** Counting in a trace. *)
Definition pips (t : list event) : nat := List.length (filter is_pip t).
Definition imports (lib : library) (t : list event) : nat :=
  List.length (filter (is_import lib) t).
Definition api_calls (t : list event) : list request :=
  flat_map (fun e => match e with ApiCall r => [r] | _ => [] end) t.
Definition file_accesses (t : list event) : list event :=
  filter is_file_access t.

(** The note [summarize_content] prints when it truncates, and the five
    lines of its handler for a failed call. *)
Definition truncation_note (content : str) : list event :=
  if (max_chars <? len content)%N
  then [Stderr (lit "NOTE: File is very large (" ++ str_of_N (len content)
                ++ lit " chars). Truncating to " ++ str_of_N max_chars
                ++ lit " chars.")]
  else [].

Definition failure_lines (e : str) : list event :=
  [ Stderr (lit "ERROR: Failed to generate summary: " ++ e);
    Stderr (LF :: lit "Please check:");
    Stderr (lit "  1. Your API key is valid");
    Stderr (lit "  2. You have available API credits");
    Stderr (lit "  3. The OpenAI API service is accessible") ].

(** The body under [try], after the import statement: what it does, and the
    value it returns or the exception it raises. *)
Definition body (w : World) (op : operation)
  : list event * (exn + option str) :=
  match op with
  | ReadPdf p =>
    ([Open p],
     match pdf_pages w p with
     | inr text_parts => inr (Some (join [LF; LF] text_parts))
     | inl e => inl e
     end)
  | ReadDocx p =>
    ([Open p],
     match docx_paragraphs w p with
     | inr text_parts => inr (Some (join [LF; LF] text_parts))
     | inl e => inl e
     end)
  | Summarize c d m k =>
    match client_init w k with
    | Some e => ([], inl e)
    | None =>
      (truncation_note c ++ [ApiCall (request_for c d m)],
       match completion w k (request_for c d m) with
       | inr answer => inr answer
       | inl e => inl (OtherError e)
       end)
    end
  end.

(** What the handler [except Exception as e] prints. *)
Definition handler_lines (op : operation) (e : str) : list event :=
  match op with
  | ReadPdf _ => [Stderr (lit "Error reading PDF: " ++ e)]
  | ReadDocx _ => [Stderr (lit "Error reading DOCX: " ++ e)]
  | Summarize _ _ _ _ => failure_lines e
  end.

(** What the handler [except ImportError] does before it calls the
    operation again. *)
Definition install_round (lib : library) : list event :=
  [ Stderr (not_installed lib);
    Stdout (lit "Installing required packages..."); Pip;
    Stdout (lit "Dependencies installed successfully.") ].

(** Whether the attempt made after [n] runs of [pip] raises [ImportError],
    at the import statement or in the body, and what it does until then. *)
Definition attempt_fails (w : World) (op : operation) (n : nat) : bool :=
  negb (importable w (library_of op) n)
  || match snd (body w op) with
     | inl (ImportError _) => true
     | _ => false
     end.

Definition attempt_events (w : World) (op : operation) (n : nat)
  : list event :=
  Import (library_of op)
  :: (if importable w (library_of op) n then fst (body w op) else []).

(** An attempt that does not raise [ImportError]: its result and what it
    does after the import and the body. *)
Definition attempt_result (w : World) (op : operation)
  : option str * list event :=
  match snd (body w op) with
  | inr r => (r, [])
  | inl (OtherError e) => (None, handler_lines op e)
  | inl (ImportError _) => (None, [])
  end.

(** [k] failed attempts in a row, each followed by an installation. *)
Fixpoint rounds (w : World) (op : operation) (n k : nat) : list event :=
  match k with
  | O => []
  | S k' =>
    attempt_events w op n ++ install_round (library_of op)
    ++ rounds w op (S n) k'
  end.

Definition undecodable : str := lit "Unable to read file with common encodings".

(** A PDF file in a world where the import succeeds after two installations. *)
Definition slow_install_world : World :=
  installs_after (with_file bare_world (lit "a.pdf") (lit ".pdf") [x48; x69]) 2.

Arguments lit : simpl never.

(** The key is set, the client package is installed and the service answers. *)
Definition ready_world : World :=
  with_env (answering (installs_after bare_world 0) (lit "A greeting."))
    OPENAI_API_KEY (lit "sk-1").

(** A text of 100,001 characters. *)
Definition long_text : str := repeat 97%N (N.to_nat 100001).

(** The variable is set, to the empty string. *)
Definition empty_key_world : World := with_env bare_world OPENAI_API_KEY [].


(** The key is set and the file [blank.txt] holds two spaces and a line
    feed. *)
Definition blank_file_world : World :=
  with_env (with_file bare_world (lit "blank.txt") (lit ".txt") [x20; x20; x0a])
    OPENAI_API_KEY (lit "sk-1").

(** The lines [install_dependencies] prints, and the actions a reader may
    perform: no request, no import of the client package, nothing on
    standard output but these two lines. *)
Definition install_lines : list str :=
  [lit "Installing required packages...";
   lit "Dependencies installed successfully."].

Definition reader_event (e : event) : bool :=
  match e with
  | ApiCall _ => false
  | Import Openai => false
  | Stdout s => existsb (str_eqb s) install_lines
  | Traceback _ => false
  | _ => true
  end.

(** The four lines of [get_api_key] on a missing credential. *)
Definition guidance : list event :=
  [ Stderr (lit "ERROR: OPENAI_API_KEY environment variable not set.");
    Stderr (LF :: lit "Please set your API key:");
    Stderr (lit "  export OPENAI_API_KEY='sk-...'");
    Stderr (LF :: lit "Or add to your shell profile (~/.bashrc or ~/.zshrc) for persistence.") ].

(** ** What the default mode prints *)

(** The two progress lines before the request, and the result block. *)
Definition progress_lines (content detail model : str) : list event :=
  [ Stderr (lit "File size: " ++ str_of_N (len content) ++ lit " characters");
    Stderr (lit "Generating " ++ detail ++ lit " summary using "
            ++ model ++ lit "...") ].

Definition result_block (detail summary : str) : list event :=
  [ Stdout (LF :: rule);
    Stdout (lit "SUMMARY (" ++ upper detail ++ lit ")");
    Stdout (rule ++ [LF]);
    Stdout summary;
    Stdout (LF :: rule) ].

(** Printing lines one after the other: whether all went out, and what was
    done. *)
Fixpoint printed (w : World) (ls : list str) : bool * list event :=
  match ls with
  | [] => (true, [])
  | l :: rest =>
    if can_encode w l then
      let '(ok, t) := printed w rest in (ok, Stdout l :: t)
    else (false, [Traceback (lit "UnicodeEncodeError")])
  end.

Definition block_lines (detail summary : str) : list str :=
  [ LF :: rule; lit "SUMMARY (" ++ upper detail ++ lit ")"; rule ++ [LF];
    summary; LF :: rule ].

(** Standard output carries only the two lines of an installation, and no
    exception went uncaught. *)
Definition quiet_stdout (e : event) : bool :=
  match e with
  | Stdout s => existsb (str_eqb s) install_lines
  | Traceback _ => false
  | _ => true
  end.

(** The key is set, the client package is installed, the service answers,
    and [a.txt] holds the five bytes "Hi\r\n" and 0xFF. *)
Definition greeting_world : World :=
  with_env
    (answering
       (installs_after
          (with_file bare_world (lit "a.txt") (lit ".txt")
             [x48; x69; x0d; x0a; xff]) 0)
       (lit "A greeting."))
    OPENAI_API_KEY (lit "sk-1").

Definition brief_args (p : str) : Args :=
  {| file_path := Some p; detail := lit "brief"; model := lit "gpt-4o-mini";
     check_config := false |}.

(** The text [read_text_file] makes of the bytes of a file: the UTF-8
    decoding when there is one, the Latin-1 decoding otherwise, with the line
    endings translated. *)
Definition text_of_bytes (bs : list byte) : str :=
  translate_newlines
    (match decode UTF8 bs with
     | Some text => text
     | None => map Byte.to_N bs
     end).

(** As [greeting_world], with a service that fails. *)
Definition offline_world : World :=
  with_env
    (installs_after
       (with_file bare_world (lit "a.txt") (lit ".txt")
          [x48; x69; x0d; x0a; xff]) 0)
    OPENAI_API_KEY (lit "sk-1").

(** ** UTF-8 files

    The bytes a text has in UTF-8 (Python's [s.encode('utf-8')]), for code
    points that are Unicode scalar values. *)
Definition scalar (c : char) : bool :=
  ((c <? 55296) || (57344 <=? c) && (c <? 1114112))%N.

Definition utf8_encode_char (c : char) : list N :=
  if (c <? 128)%N then [c]
  else if (c <? 2048)%N then [192 + c / 64; 128 + c mod 64]%N
  else if (c <? 65536)%N then
    [224 + c / 4096; 128 + (c / 64) mod 64; 128 + c mod 64]%N
  else
    [240 + c / 262144; 128 + (c / 4096) mod 64; 128 + (c / 64) mod 64;
     128 + c mod 64]%N.

Definition utf8_encode (s : str) : list N := flat_map utf8_encode_char s.

(** A file holding "é" and a Windows line ending, in UTF-8. *)
Definition accent_world : World :=
  with_file bare_world (lit "e.txt") (lit ".txt") [xc3; xa9; x0d; x0a].

(** A file that cannot be opened. *)
Definition locked_world : World :=
  {| environ := environ bare_world; path_str := path_str bare_world;
     path_exists := fun _ => true; path_is_file := fun _ => true;
     path_suffix := fun _ => lit ".txt";
     file_bytes := fun _ => inl (lit "[Errno 13] Permission denied");
     importable := importable bare_world;
     pdf_pages := pdf_pages bare_world;
     docx_paragraphs := docx_paragraphs bare_world;
     client_init := client_init bare_world;
     completion := completion bare_world;
     help_text := help_text bare_world;
     stdout_encodes := stdout_encodes bare_world;
     recursion_error := recursion_error bare_world;
     parse_args := parse_args bare_world |}.

(** Every library is installed and nothing can be read. *)
Definition installed_world : World := installs_after bare_world 0.

(** The key is set, the libraries are installed and [SCAN.PDF] is a PDF
    whose only page has no text. *)
Definition scan_world : World :=
  with_env
    (installs_after (with_file bare_world (lit "SCAN.PDF") (lit ".PDF") []) 0)
    OPENAI_API_KEY (lit "sk-1").

(** ** Strings *)

Lemma str_eqb_eq (a b : str) : str_eqb a b = true <-> a = b.
Proof.
  revert b; induction a as [|x a IH]; intros [|y b]; simpl;
    try (split; [discriminate | intros E; discriminate E || reflexivity]);
    try (split; reflexivity).
  rewrite andb_true_iff, N.eqb_eq, IH.
  split; [intros [-> ->]; reflexivity | intros E; injection E; auto].
Qed.

Lemma str_eqb_neq (a b : str) : a <> b -> str_eqb a b = false.
Proof.
  intros H; destruct (str_eqb a b) eqn:E; [|reflexivity].
  apply str_eqb_eq in E; contradiction.
Qed.

Lemma lstrip_nil_iff (s : str) : lstrip s = [] <-> forallb isspace s = true.
Proof.
  induction s as [|c s IH]; simpl; [tauto|].
  destruct (isspace c); simpl; [exact IH | split; discriminate].
Qed.

Lemma lstrip_head (s : str) :
  match lstrip s with [] => True | c :: _ => isspace c = false end.
Proof.
  induction s as [|c s IH]; simpl; [exact I|].
  destruct (isspace c) eqn:E; [exact IH | exact E].
Qed.

Lemma forallb_rev {A} (f : A -> bool) (l : list A) :
  forallb f (rev l) = forallb f l.
Proof.
  induction l as [|a l IH]; simpl; [reflexivity|].
  rewrite forallb_app, IH; simpl. rewrite andb_true_r. apply andb_comm.
Qed.

(** [not content.strip()] holds exactly for the empty and the all-whitespace
    strings. *)
Lemma strip_nil_iff (s : str) : strip s = [] <-> forallb isspace s = true.
Proof.
  unfold strip, rstrip. split.
  - intros H.
    assert (E : lstrip (rev (lstrip s)) = []).
    { rewrite <- (rev_involutive (lstrip (rev (lstrip s)))), H; reflexivity. }
    apply lstrip_nil_iff in E. rewrite forallb_rev in E.
    pose proof (lstrip_head s) as Hh.
    destruct (lstrip s) as [|c r] eqn:El.
    + apply lstrip_nil_iff; exact El.
    + simpl in E. rewrite Hh in E. discriminate.
  - intros H. apply lstrip_nil_iff in H. rewrite H. reflexivity.
Qed.

(** ** The prompt builder *)

(** C4.  [get_system_prompt] is a total function on strings.  For 'brief',
    'medium' and 'detailed' it gives three instruction strings that are
    pairwise distinct and non-empty, and for every other string it gives
    exactly the instruction of 'medium'. *)
Theorem get_system_prompt_levels (detail_level : str) :
  (get_system_prompt (lit "brief") <> get_system_prompt (lit "medium")
   /\ get_system_prompt (lit "brief") <> get_system_prompt (lit "detailed")
   /\ get_system_prompt (lit "medium") <> get_system_prompt (lit "detailed"))
  /\ (get_system_prompt (lit "brief") <> []
      /\ get_system_prompt (lit "medium") <> []
      /\ get_system_prompt (lit "detailed") <> [])
  /\ (detail_level <> lit "brief" -> detail_level <> lit "medium" ->
      detail_level <> lit "detailed" ->
      get_system_prompt detail_level = get_system_prompt (lit "medium")).
Proof.
  split; [|split].
  - repeat split; intros E; vm_compute in E; discriminate E.
  - repeat split; intros E; vm_compute in E; discriminate E.
  - intros Hb Hm Hd. unfold get_system_prompt, prompts, dict_get at 1.
    rewrite (str_eqb_neq _ _ (not_eq_sym Hb)), (str_eqb_neq _ _ (not_eq_sym Hm)),
      (str_eqb_neq _ _ (not_eq_sym Hd)).
    reflexivity.
Qed.

Lemma get_system_prompt_levels_witness :
  get_system_prompt (lit "verbose") = get_system_prompt (lit "medium").
Proof.
  apply (get_system_prompt_levels (lit "verbose"));
    intros E; vm_compute in E; discriminate E.
Defined.

(** ** The text reader *)

Section TextReader.

Variable w : World.
Variable path : str.
Variable bs : list byte.
Hypothesis readable : file_bytes w path = inr bs.

(** When no encoding of the list decodes the file, the loop opens the file
    once per encoding and ends on the diagnostic, with no text. *)
Lemma try_encodings_none (encs : list encoding) (n : nat) :
  (forall e, In e encs -> decode e bs = None) ->
  try_encodings w path encs n
  = (Ret None, n, repeat (Open path) (List.length encs) ++ [Stderr undecodable]).
Proof.
  induction encs as [|e encs IH]; intros Hall; [reflexivity|].
  simpl try_encodings. unfold bind at 1. simpl.
  rewrite readable, (Hall e (or_introl eq_refl)).
  rewrite IH by (intros e' He'; apply Hall; right; exact He').
  reflexivity.
Qed.

(** The first encoding that decodes the file ends the loop. *)
Lemma try_encodings_first (e : encoding) (encs : list encoding) (text : str)
    (n : nat) :
  decode e bs = Some text ->
  try_encodings w path (e :: encs) n
  = (Ret (Some (translate_newlines text)), n, [Open path]).
Proof.
  intros He. simpl try_encodings. unfold bind at 1. simpl.
  rewrite readable, He. reflexivity.
Qed.

Lemma try_encodings_next (e : encoding) (encs : list encoding) (n : nat) :
  decode e bs = None ->
  try_encodings w path (e :: encs) n
  = (let '(o, n', t) := try_encodings w path encs n in (o, n', Open path :: t)).
Proof.
  intros He. simpl try_encodings. unfold bind at 1. simpl.
  rewrite readable, He. reflexivity.
Qed.

Lemma read_text_file_result (n : nat) :
  read_text_file w path n
  = match decode UTF8 bs with
    | Some text => (Ret (Some (translate_newlines text)), n, [Open path])
    | None => (Ret (Some (translate_newlines (map Byte.to_N bs))), n,
               [Open path; Open path])
    end.
Proof.
  unfold read_text_file, encodings.
  destruct (decode UTF8 bs) as [text|] eqn:E.
  - apply try_encodings_first; exact E.
  - rewrite (try_encodings_next _ _ _ E).
    rewrite (try_encodings_first LATIN1 _ (map Byte.to_N bs) _ eq_refl).
    reflexivity.
Qed.

End TextReader.

(** Whatever the file system answers, the diagnostic of the exhausted list
    is never printed by [read_text_file]. *)
Lemma read_text_file_never_undecodable (w : World) (path : str) (n : nat) :
  ~ In (Stderr undecodable) (snd (read_text_file w path n)).
Proof.
  destruct (file_bytes w path) as [e|bs] eqn:E.
  - unfold read_text_file, encodings. simpl try_encodings.
    unfold bind at 1. simpl. rewrite E. simpl.
    intros [H|[H|[]]]; discriminate H.
  - rewrite (read_text_file_result _ _ _ E).
    destruct (decode UTF8 bs); simpl; intros H;
      repeat (destruct H as [H|H]; [discriminate H|]); exact H.
Qed.

(** C3, as the code has it.  The loop over a list of encodings returns the
    first successful decoding; were every encoding of the list to fail, it
    would end on the diagnostic and return no text.  With the list of the
    script this cannot happen: Latin-1 decodes every byte sequence, so a
    readable file always yields text, decoded as UTF-8 when it is valid UTF-8
    and as Latin-1 otherwise, and the diagnostic is never printed. *)
Theorem read_text_file_fallback (w : World) (path : str) (bs : list byte)
    (n : nat) (readable : file_bytes w path = inr bs) :
  (forall encs, (forall e, In e encs -> decode e bs = None) ->
     try_encodings w path encs n
     = (Ret None, n,
        repeat (Open path) (List.length encs) ++ [Stderr undecodable]))
  /\ read_text_file w path n
     = match decode UTF8 bs with
       | Some text => (Ret (Some (translate_newlines text)), n, [Open path])
       | None => (Ret (Some (translate_newlines (map Byte.to_N bs))), n,
                  [Open path; Open path])
       end
  /\ ~ In (Stderr undecodable) (snd (read_text_file w path n)).
Proof.
  split; [|split].
  - intros encs Hall. apply (try_encodings_none w path bs readable encs n Hall).
  - apply (read_text_file_result w path bs readable n).
  - apply read_text_file_never_undecodable.
Qed.

Lemma read_text_file_fallback_witness :
  try_encodings high_byte_world (lit "a.txt") [UTF8; CP1252] 0
  = (Ret None, 0,
     [Open (lit "a.txt"); Open (lit "a.txt"); Stderr undecodable])
  /\ read_text_file high_byte_world (lit "a.txt") 0
     = (Ret (Some [129%N]), 0, [Open (lit "a.txt"); Open (lit "a.txt")]).
Proof.
  destruct (read_text_file_fallback high_byte_world (lit "a.txt") [x81] 0
              eq_refl) as (H1 & H2 & _).
  split.
  - apply (H1 [UTF8; CP1252]). intros e [<-|[<-|[]]]; reflexivity.
  - exact H2.
Defined.

(** C3 as stated fails: no byte sequence is rejected by every encoding of
    the list, and no run of the text reader prints the diagnostic. *)
Lemma undecodable_never_produced :
  (~ exists bs : list byte, forall e, In e encodings -> decode e bs = None)
  /\ (~ exists (w : World) (path : str) (n : nat),
        In (Stderr undecodable) (snd (read_text_file w path n))).
Proof.
  split.
  - intros [bs H]. specialize (H LATIN1 (or_intror (or_introl eq_refl))).
    discriminate H.
  - intros (w & path & n & H).
    exact (read_text_file_never_undecodable w path n H).
Qed.


(** ** Retrying after installation *)

Lemma prepend_app {A} (a b : list event) (r : outcome A * nat * list event) :
  prepend a (prepend b r) = prepend (a ++ b) r.
Proof. destruct r as [[o n] t]; simpl. rewrite app_assoc; reflexivity. Qed.

Lemma prepend_nil {A} (r : outcome A * nat * list event) : prepend [] r = r.
Proof. destruct r as [[o n] t]; reflexivity. Qed.

Lemma snd_prepend {A} (pre : list event) (r : outcome A * nat * list event) :
  snd (prepend pre r) = pre ++ snd r.
Proof. destruct r as [[o n] t]; reflexivity. Qed.

Lemma fst_prepend {A} (pre : list event) (r : outcome A * nat * list event) :
  fst (prepend pre r) = fst r.
Proof. destruct r as [[o n] t]; reflexivity. Qed.

(** How the actions of the script compose. *)
Lemma bind_emit {B} (e : event) (k : unit -> M B) (n : nat) :
  bind (emit e) k n = prepend [e] (k tt n).
Proof. reflexivity. Qed.

Lemma bind_ret {A B} (a : A) (k : A -> M B) (n : nat) :
  bind (ret a) k n = k a n.
Proof. unfold bind, ret. apply prepend_nil. Qed.

Lemma bind_try_import {B} (w : World) (lib : library) (k : bool -> M B)
    (n : nat) :
  bind (try_import w lib) k n = prepend [Import lib] (k (importable w lib n) n).
Proof.
  unfold try_import, bind, pip_runs, emit, ret; cbn [prepend app].
  destruct (k (importable w lib n) n) as [[o n'] t]; reflexivity.
Qed.

(** Printing ASCII text cannot fail. *)
Lemma can_encode_ascii (w : World) (s : str) :
  forallb ascii s = true -> can_encode w s = true.
Proof.
  unfold can_encode. induction s as [|c s IH]; [reflexivity|].
  cbn [forallb]. rewrite !andb_true_iff. intros [Hc Hs].
  rewrite Hc. split; [reflexivity | exact (IH Hs)].
Qed.

Lemma print_ascii (w : World) (s : str) :
  forallb ascii s = true -> print w s = emit (Stdout s).
Proof. intros H. unfold print. rewrite (can_encode_ascii w s H). reflexivity. Qed.

Lemma bind_install {B} (w : World) (k : unit -> M B) (n : nat) :
  bind (install_dependencies w) k n
  = prepend [Stdout (lit "Installing required packages..."); Pip;
             Stdout (lit "Dependencies installed successfully.")]
      (k tt (S n)).
Proof.
  unfold install_dependencies.
  rewrite !print_ascii by reflexivity. reflexivity.
Qed.

(** The three operations, one level at a time. *)
Lemma perform_limit (w : World) (op : operation) (n : nat) :
  perform 0 w op n
  = (Ret None, n,
     Import (library_of op) :: handler_lines op (recursion_error w)).
Proof. destruct op; reflexivity. Qed.

Lemma retry_step {B} (w : World) (lib : library) (k : M B) (n : nat) :
  bind (eprint (not_installed lib))
    (fun _ => bind (install_dependencies w) (fun _ => k)) n
  = prepend (install_round lib) (k (S n)).
Proof.
  unfold eprint. rewrite bind_emit, bind_install, prepend_app. reflexivity.
Qed.

Lemma perform_retry (fuel : nat) (w : World) (op : operation) (n : nat) :
  attempt_fails w op n = true ->
  perform (S fuel) w op n
  = prepend (attempt_events w op n ++ install_round (library_of op))
      (perform fuel w op (S n)).
Proof.
  unfold attempt_fails, attempt_events. intros H.
  destruct op as [p|p|c d m k];
    cbn [perform library_of read_pdf read_docx summarize_content body fst snd]
      in H |- *;
    rewrite bind_try_import;
    destruct (importable w _ n); cbn [negb orb] in H.
  - rewrite bind_emit.
    destruct (pdf_pages w p) as [[msg|msg]|parts]; try discriminate H.
    rewrite (retry_step w PyPDF2), !prepend_app. reflexivity.
  - rewrite (retry_step w PyPDF2), prepend_app. reflexivity.
  - rewrite bind_emit.
    destruct (docx_paragraphs w p) as [[msg|msg]|parts]; try discriminate H.
    rewrite (retry_step w Docx), !prepend_app. reflexivity.
  - rewrite (retry_step w Docx), prepend_app. reflexivity.
  - destruct (client_init w k) as [[msg|msg]|]; cbn [snd] in H;
      try discriminate H.
    + rewrite (retry_step w Openai), prepend_app. reflexivity.
    + destruct (completion w k (request_for c d m)); discriminate H.
  - rewrite (retry_step w Openai), prepend_app. reflexivity.
Qed.

Lemma perform_attempt (fuel : nat) (w : World) (op : operation) (n : nat) :
  attempt_fails w op n = false ->
  perform (S fuel) w op n
  = (Ret (fst (attempt_result w op)), n,
     attempt_events w op n ++ snd (attempt_result w op)).
Proof.
  unfold attempt_fails, attempt_events, attempt_result. intros H.
  apply orb_false_iff in H. destruct H as [Hi Hb].
  apply negb_false_iff in Hi.
  destruct op as [p|p|c d m k];
    cbn [perform library_of read_pdf read_docx summarize_content body fst snd
         handler_lines] in Hi, Hb |- *;
    rewrite bind_try_import, Hi.
  - rewrite bind_emit.
    destruct (pdf_pages w p) as [[msg|msg]|parts]; try discriminate Hb;
      reflexivity.
  - rewrite bind_emit.
    destruct (docx_paragraphs w p) as [[msg|msg]|parts]; try discriminate Hb;
      reflexivity.
  - destruct (client_init w k) as [[msg|msg]|]; cbn [fst snd] in Hb |- *;
      try discriminate Hb; [reflexivity|].
    unfold truncation_note, request_for, sent_content.
    destruct (max_chars <? len c)%N; cbv iota;
      unfold bind, eprint, emit, ret; cbv beta iota; cbn [prepend app];
      match goal with |- context [completion w k ?r] =>
        destruct (completion w k r) end;
      reflexivity.
Qed.

(** While the attempts keep raising [ImportError], each level of the
    recursion adds one round and one installation. *)
Lemma perform_rounds (k fuel : nat) (w : World) (op : operation) (n : nat) :
  (forall i, i < k -> attempt_fails w op (n + i) = true) ->
  perform (k + fuel) w op n
  = prepend (rounds w op n k) (perform fuel w op (n + k)).
Proof.
  revert n; induction k as [|k IH]; intros n Hfail.
  - rewrite Nat.add_0_r, prepend_nil. reflexivity.
  - change (S k + fuel) with (S (k + fuel)).
    rewrite perform_retry by (rewrite <- (Nat.add_0_r n); apply Hfail; lia).
    rewrite IH.
    + rewrite prepend_app. cbn [rounds]. rewrite <- app_assoc.
      replace (S n + k) with (n + S k) by lia. reflexivity.
    + intros i Hi. replace (S n + i) with (n + S i) by lia. apply Hfail; lia.
Qed.

Lemma pips_app (a b : list event) : pips (a ++ b) = pips a + pips b.
Proof. unfold pips. rewrite filter_app, length_app. reflexivity. Qed.

Lemma imports_app (lib : library) (a b : list event) :
  imports lib (a ++ b) = imports lib a + imports lib b.
Proof. unfold imports. rewrite filter_app, length_app. reflexivity. Qed.

Lemma api_calls_app (a b : list event) :
  api_calls (a ++ b) = api_calls a ++ api_calls b.
Proof. unfold api_calls. apply flat_map_app. Qed.

Lemma stdout_of_app (a b : list event) :
  stdout_of (a ++ b) = stdout_of a ++ stdout_of b.
Proof. unfold stdout_of. apply flat_map_app. Qed.

(** One attempt: one import, no installation; a failed one sends no
    request and prints nothing on standard output. *)
Lemma attempt_events_counts (w : World) (op : operation) (n : nat) :
  pips (attempt_events w op n) = 0
  /\ imports (library_of op) (attempt_events w op n) = 1
  /\ stdout_of (attempt_events w op n) = [].
Proof.
  unfold attempt_events.
  destruct op as [p|p|c d m k]; cbn [library_of body fst];
    destruct (importable w _ n); try (repeat split; reflexivity).
  destruct (client_init w k); [repeat split; reflexivity|].
  unfold truncation_note. cbn [fst].
  destruct (max_chars <? len c)%N; repeat split; reflexivity.
Qed.

Lemma attempt_result_counts (w : World) (op : operation) :
  pips (snd (attempt_result w op)) = 0
  /\ imports (library_of op) (snd (attempt_result w op)) = 0
  /\ stdout_of (snd (attempt_result w op)) = []
  /\ api_calls (snd (attempt_result w op)) = [].
Proof.
  unfold attempt_result.
  destruct (snd (body w op)) as [[msg|msg]|r]; try (repeat split; reflexivity).
  destruct op; repeat split; reflexivity.
Qed.

Lemma failed_attempt_calls (w : World) (op : operation) (n : nat) :
  attempt_fails w op n = true -> api_calls (attempt_events w op n) = [].
Proof.
  unfold attempt_fails, attempt_events.
  destruct op as [p|p|c d m k]; cbn [library_of body fst snd];
    destruct (importable w _ n); cbn [negb orb]; intros H;
    try reflexivity.
  destruct (client_init w k) as [e|]; [reflexivity|]. cbn [snd] in H.
  destruct (completion w k (request_for c d m)); discriminate H.
Qed.

Lemma install_round_counts (lib : library) :
  pips (install_round lib) = 1 /\ imports lib (install_round lib) = 0
  /\ stdout_of (install_round lib) = install_lines
  /\ api_calls (install_round lib) = [].
Proof. destruct lib; repeat split; reflexivity. Qed.

Lemma rounds_counts (w : World) (op : operation) (k n : nat) :
  pips (rounds w op n k) = k
  /\ imports (library_of op) (rounds w op n k) = k
  /\ stdout_of (rounds w op n k) = List.concat (repeat install_lines k).
Proof.
  revert n; induction k as [|k IH]; intros n; [repeat split; reflexivity|].
  destruct (IH (S n)) as (Hp & Hi & Hs).
  destruct (attempt_events_counts w op n) as (Ap & Ai & As).
  destruct (install_round_counts (library_of op)) as (Rp & Ri & Rs & _).
  cbn [rounds repeat List.concat].
  rewrite !pips_app, !imports_app, !stdout_of_app, Hp, Hi, Hs, Ap, Ai, As,
    Rp, Ri, Rs.
  repeat split; reflexivity.
Qed.

(** The recursion is as deep as the limit allows at most, and the operation
    always returns. *)
Lemma perform_bounded (fuel : nat) (w : World) (op : operation) (n : nat) :
  pips (snd (perform fuel w op n)) <= fuel
  /\ exists r, fst (fst (perform fuel w op n)) = Ret r.
Proof.
  revert n; induction fuel as [|fuel IH]; intros n.
  - rewrite perform_limit. split; [|exists None; reflexivity].
    destruct op; cbn; lia.
  - destruct (attempt_fails w op n) eqn:E.
    + rewrite perform_retry by exact E.
      destruct (IH (S n)) as [Hp [r Hr]].
      rewrite snd_prepend, fst_prepend, !pips_app.
      destruct (attempt_events_counts w op n) as (Ap & _).
      destruct (install_round_counts (library_of op)) as (Rp & _).
      rewrite Ap, Rp. split; [lia | exists r; exact Hr].
    + rewrite perform_attempt by exact E. cbn [fst snd].
      destruct (attempt_events_counts w op n) as (Ap & _).
      destruct (attempt_result_counts w op) as (Bp & _).
      rewrite pips_app, Ap, Bp. split; [lia | eexists; reflexivity].
Qed.

(** C1, as the code has it.  Each of the three operations that import a
    library answers an [ImportError], raised by the import statement or by
    the body under [try], by installing the dependencies and calling itself
    again, and does so after every such failure, not only the first.  If the
    attempts fail [k] times and the next one does not, with [k] below the
    depth the recursion limit allows, the operation ends as that last call
    ends, after exactly [k] installations and [k + 1] imports.  The retrying
    is bounded by the recursion limit alone: there are never more
    installations than levels, the operation always returns, and when every
    attempt fails it installs once per level and ends, at the limit, with
    the recursion error reported and no result. *)
Theorem retry_after_install (w : World) (op : operation) (n k fuel : nat) :
  ((forall i, i < k -> attempt_fails w op (n + i) = true) ->
   attempt_fails w op (n + k) = false ->
   k < fuel ->
   perform fuel w op n
   = prepend (rounds w op n k) (perform (fuel - k) w op (n + k))
   /\ perform (fuel - k) w op (n + k)
      = (Ret (fst (attempt_result w op)), n + k,
         attempt_events w op (n + k) ++ snd (attempt_result w op))
   /\ pips (snd (perform fuel w op n)) = k
   /\ imports (library_of op) (snd (perform fuel w op n)) = S k)
  /\ (pips (snd (perform fuel w op n)) <= fuel
      /\ exists r, fst (fst (perform fuel w op n)) = Ret r)
  /\ ((forall i, attempt_fails w op (n + i) = true) ->
      perform fuel w op n
      = (Ret None, n + fuel,
         rounds w op n fuel
         ++ Import (library_of op) :: handler_lines op (recursion_error w))).
Proof.
  split; [|split].
  - intros Hfail Hok Hfuel.
    assert (Hlast : perform (fuel - k) w op (n + k)
                    = (Ret (fst (attempt_result w op)), n + k,
                       attempt_events w op (n + k)
                       ++ snd (attempt_result w op))).
    { replace (fuel - k) with (S (fuel - S k)) by lia.
      apply perform_attempt. exact Hok. }
    assert (Hall : perform fuel w op n
                   = prepend (rounds w op n k)
                       (perform (fuel - k) w op (n + k))).
    { replace fuel with (k + (fuel - k)) at 1 by lia.
      apply perform_rounds. exact Hfail. }
    split; [exact Hall|]. split; [exact Hlast|].
    rewrite Hall, Hlast. cbn [prepend snd].
    destruct (rounds_counts w op k n) as (Rp & Ri & _).
    destruct (attempt_events_counts w op (n + k)) as (Ap & Ai & _).
    destruct (attempt_result_counts w op) as (Bp & Bi & _).
    rewrite !pips_app, !imports_app, Rp, Ri, Ap, Ai, Bp, Bi.
    split; lia.
  - apply perform_bounded.
  - intros Hfail.
    replace (perform fuel w op n) with (perform (fuel + 0) w op n)
      by (rewrite Nat.add_0_r; reflexivity).
    rewrite perform_rounds by (intros i _; apply Hfail).
    rewrite perform_limit. reflexivity.
Qed.

Lemma retry_after_install_witness :
  (read_pdf 3 slow_install_world (lit "a.pdf") 0
   = prepend (rounds slow_install_world (ReadPdf (lit "a.pdf")) 0 2)
       (read_pdf 1 slow_install_world (lit "a.pdf") 2)
   /\ read_pdf 1 slow_install_world (lit "a.pdf") 2
      = (Ret (Some (lit "Hi")), 2, [Import PyPDF2; Open (lit "a.pdf")])
   /\ pips (snd (read_pdf 3 slow_install_world (lit "a.pdf") 0)) = 2
   /\ imports PyPDF2 (snd (read_pdf 3 slow_install_world (lit "a.pdf") 0)) = 3)
  /\ summarize_content 3 (broken_client ready_world) (lit "Hi") (lit "brief")
       (lit "gpt-4o-mini") (lit "sk-1") 0
     = (Ret None, 3,
        rounds (broken_client ready_world)
          (Summarize (lit "Hi") (lit "brief") (lit "gpt-4o-mini") (lit "sk-1"))
          0 3
        ++ Import Openai :: failure_lines (lit "maximum recursion depth exceeded")).
Proof.
  split.
  - apply (proj1 (retry_after_install slow_install_world
                    (ReadPdf (lit "a.pdf")) 0 2 3)).
    + intros [|[|i]] Hi; [reflexivity | reflexivity | lia].
    + reflexivity.
    + lia.
  - apply (proj2 (proj2 (retry_after_install (broken_client ready_world)
                           (Summarize (lit "Hi") (lit "brief")
                              (lit "gpt-4o-mini") (lit "sk-1")) 0 0 3))).
    intros i; reflexivity.
Defined.

(** C1 as stated fails: with an import that fails twice and then succeeds,
    the second failure is not fatal; [read_pdf] installs a second time, tries
    a third time and returns the text. *)
Lemma second_failure_is_retried :
  importable slow_install_world PyPDF2 0 = false
  /\ importable slow_install_world PyPDF2 1 = false
  /\ fst (fst (read_pdf 3 slow_install_world (lit "a.pdf") 0))
     = Ret (Some (lit "Hi"))
  /\ pips (snd (read_pdf 3 slow_install_world (lit "a.pdf") 0)) = 2
  /\ imports PyPDF2 (snd (read_pdf 3 slow_install_world (lit "a.pdf") 0)) = 3.
Proof. repeat split; vm_compute; reflexivity. Qed.

(** ** The summarization client *)

Lemma importable_false_fails (w : World) (op : operation) (n : nat) :
  importable w (library_of op) n = false -> attempt_fails w op n = true.
Proof. intros H. unfold attempt_fails. rewrite H. reflexivity. Qed.

Lemma summarize_attempt_ok (w : World) (c d m k : str) (n : nat) :
  importable w Openai n = true ->
  client_init w k = None ->
  attempt_fails w (Summarize c d m k) n = false.
Proof.
  intros Hi Hc. unfold attempt_fails. cbn [library_of body]. rewrite Hi, Hc.
  cbn [negb orb snd].
  destruct (completion w k (request_for c d m)); reflexivity.
Qed.

(** The requests one attempt sends. *)
Lemma summarize_attempt_calls (w : World) (c d m k : str) (n : nat) :
  attempt_fails w (Summarize c d m k) n = false ->
  api_calls (attempt_events w (Summarize c d m k) n)
  = match client_init w k with
    | Some _ => []
    | None => [request_for c d m]
    end.
Proof.
  unfold attempt_fails, attempt_events. cbn [library_of body].
  destruct (importable w Openai n); [|discriminate].
  destruct (client_init w k); [reflexivity|]. intros _. cbn [fst].
  unfold truncation_note.
  destruct (max_chars <? len c)%N; reflexivity.
Qed.

(** Whatever happens, at most one request is sent, and it is the request
    built from the arguments. *)
Lemma summarize_content_calls_any (fuel : nat) (w : World) (c d m k : str)
    (n : nat) :
  api_calls (snd (summarize_content fuel w c d m k n)) = []
  \/ api_calls (snd (summarize_content fuel w c d m k n)) = [request_for c d m].
Proof.
  change (summarize_content fuel w c d m k n)
    with (perform fuel w (Summarize c d m k) n).
  revert n; induction fuel as [|fuel IH]; intros n.
  - left. rewrite perform_limit. reflexivity.
  - destruct (attempt_fails w (Summarize c d m k) n) eqn:E.
    + rewrite perform_retry by exact E.
      rewrite snd_prepend, !api_calls_app, (failed_attempt_calls _ _ _ E).
      exact (IH (S n)).
    + rewrite perform_attempt by exact E. cbn [snd].
      destruct (attempt_result_counts w (Summarize c d m k)) as (_ & _ & _ & Hr).
      rewrite api_calls_app, Hr, app_nil_r, (summarize_attempt_calls _ _ _ _ _ _ E).
      destruct (client_init w k); [left | right]; reflexivity.
Qed.

Lemma api_calls_rounds (w : World) (op : operation) (k n : nat) :
  (forall i, i < k -> attempt_fails w op (n + i) = true) ->
  api_calls (rounds w op n k) = [].
Proof.
  revert n; induction k as [|k IH]; intros n Hfail; [reflexivity|].
  cbn [rounds]. rewrite !api_calls_app.
  rewrite (failed_attempt_calls w op n)
    by (rewrite <- (Nat.add_0_r n); apply Hfail; lia).
  destruct (install_round_counts (library_of op)) as (_ & _ & _ & Hr).
  rewrite Hr, IH; [reflexivity|].
  intros i Hi. replace (S n + i) with (n + S i) by lia. apply Hfail; lia.
Qed.

(** Once the import succeeds and the client is built, exactly that request
    is sent. *)
Lemma summarize_content_calls (fuel j : nat) (w : World) (c d m k : str)
    (n : nat) :
  (forall i, i < j -> importable w Openai (n + i) = false) ->
  importable w Openai (n + j) = true ->
  client_init w k = None ->
  j < fuel ->
  api_calls (snd (summarize_content fuel w c d m k n)) = [request_for c d m].
Proof.
  intros Hfail Hok Hclient Hfuel.
  change (summarize_content fuel w c d m k n)
    with (perform fuel w (Summarize c d m k) n).
  assert (Hfail' : forall i, i < j ->
            attempt_fails w (Summarize c d m k) (n + i) = true).
  { intros i Hi. apply importable_false_fails. exact (Hfail i Hi). }
  pose proof (summarize_attempt_ok w c d m k (n + j) Hok Hclient) as Hlast.
  replace fuel with (j + S (fuel - S j)) by lia.
  rewrite perform_rounds by exact Hfail'.
  rewrite perform_attempt by exact Hlast.
  cbn [prepend snd].
  destruct (attempt_result_counts w (Summarize c d m k)) as (_ & _ & _ & Hr).
  rewrite !api_calls_app, (api_calls_rounds _ _ _ _ Hfail'), Hr,
    (summarize_attempt_calls _ _ _ _ _ _ Hlast), Hclient.
  reflexivity.
Qed.

(** The slice [content[:max_chars]] of a longer text has [max_chars]
    characters. *)
Lemma len_slice (c : str) :
  (max_chars < len c)%N -> len (firstn (N.to_nat max_chars) c) = max_chars.
Proof.
  unfold len. intros H. rewrite length_firstn.
  rewrite Nat.min_l by lia. apply N2Nat.id.
Qed.

(** C2.  [summarize_content] sends the text under a budget of 100,000
    characters: a text of at most 100,000 characters is sent as it is; a
    longer text is cut to its first 100,000 characters, exactly, and the
    truncation marker is appended.  (The request goes out once the import of
    the client package succeeds, after [j] failed imports, and the client is
    built.) *)
Theorem summarize_content_size_policy (fuel j : nat) (w : World)
    (c d m k : str) (n : nat)
    (Hfail : forall i, i < j -> importable w Openai (n + i) = false)
    (Hok : importable w Openai (n + j) = true)
    (Hclient : client_init w k = None)
    (Hfuel : j < fuel) :
  exists sent,
    map req_messages (api_calls (snd (summarize_content fuel w c d m k n)))
    = [[ {| role := lit "system"; content := get_system_prompt d |};
         {| role := lit "user"; content := user_prefix ++ sent |} ]]
    /\ ((len c <= 100000)%N -> sent = c)
    /\ ((100000 < len c)%N ->
        sent = firstn (N.to_nat 100000) c
               ++ [LF; LF] ++ lit "[Content truncated...]"
        /\ len (firstn (N.to_nat 100000) c) = 100000%N).
Proof.
  exists (sent_content c). split; [|split].
  - rewrite (summarize_content_calls fuel j w c d m k n Hfail Hok Hclient Hfuel).
    reflexivity.
  - intros H. unfold sent_content.
    replace (max_chars <? len c)%N with false; [reflexivity|].
    symmetry; apply N.ltb_ge; exact H.
  - intros H. split; [|exact (len_slice c H)].
    unfold sent_content.
    replace (max_chars <? len c)%N with true; [reflexivity|].
    symmetry; apply N.ltb_lt; exact H.
Qed.

Lemma summarize_content_size_policy_witness :
  (exists sent,
     map req_messages
       (api_calls (snd (summarize_content 1 ready_world (lit "Hi")
                          (lit "brief") (lit "gpt-4o-mini") (lit "sk-1") 0)))
     = [[ {| role := lit "system"; content := get_system_prompt (lit "brief") |};
          {| role := lit "user"; content := user_prefix ++ sent |} ]]
     /\ sent = lit "Hi")
  /\ (exists sent,
        map req_messages
          (api_calls (snd (summarize_content 1 ready_world long_text
                             (lit "brief") (lit "gpt-4o-mini") (lit "sk-1") 0)))
        = [[ {| role := lit "system";
                content := get_system_prompt (lit "brief") |};
             {| role := lit "user"; content := user_prefix ++ sent |} ]]
        /\ sent = firstn (N.to_nat 100000) long_text
                  ++ [LF; LF] ++ lit "[Content truncated...]"
        /\ len (firstn (N.to_nat 100000) long_text) = 100000%N).
Proof.
  assert (Hfail : forall i, i < 0 ->
            importable ready_world Openai (0 + i) = false)
    by (intros i Hi; lia).
  split.
  - destruct (summarize_content_size_policy 1 0 ready_world (lit "Hi")
                (lit "brief") (lit "gpt-4o-mini") (lit "sk-1") 0
                Hfail eq_refl eq_refl (Nat.lt_0_succ 0))
      as (sent & Hreq & Hshort & _).
    exists sent. split; [exact Hreq|]. apply Hshort. vm_compute. discriminate.
  - destruct (summarize_content_size_policy 1 0 ready_world long_text
                (lit "brief") (lit "gpt-4o-mini") (lit "sk-1") 0
                Hfail eq_refl eq_refl (Nat.lt_0_succ 0))
      as (sent & Hreq & _ & Hlong).
    exists sent. split; [exact Hreq|]. apply Hlong.
    unfold len, long_text. rewrite repeat_length, N2Nat.id. reflexivity.
Defined.

(** C9.  Every request [summarize_content] sends carries the given model,
    the fixed temperature 0.3 and exactly two messages in this order: a
    system message holding the prompt of the detail level, then a user
    message holding the fixed prefix followed by the text, truncated when it
    is over the budget.  At most one request is sent, and exactly one once
    the import succeeds and the client is built. *)
Theorem summarize_content_request (fuel : nat) (w : World) (c d m k : str)
    (n : nat) :
  let sent :=
    {| req_model := m;
       req_messages :=
         [ {| role := lit "system"; content := get_system_prompt d |};
           {| role := lit "user";
              content :=
                lit "Please summarize the following content:" ++ [LF; LF]
                ++ (if (100000 <? len c)%N
                    then firstn (N.to_nat 100000) c
                         ++ [LF; LF] ++ lit "[Content truncated...]"
                    else c) |} ];
       req_temperature := (3 # 10)%Q |} in
  let calls := api_calls (snd (summarize_content fuel w c d m k n)) in
  (calls = [] \/ calls = [sent])
  /\ (forall j,
        (forall i, i < j -> importable w Openai (n + i) = false) ->
        importable w Openai (n + j) = true ->
        client_init w k = None ->
        j < fuel ->
        calls = [sent]).
Proof.
  intros sent calls. split.
  - exact (summarize_content_calls_any fuel w c d m k n).
  - intros j Hfail Hok Hclient Hfuel.
    exact (summarize_content_calls fuel j w c d m k n Hfail Hok Hclient Hfuel).
Qed.

Lemma summarize_content_request_witness :
  api_calls (snd (summarize_content 1 ready_world (lit "Hi") (lit "brief")
                    (lit "gpt-4o-mini") (lit "sk-1") 0))
  = [ {| req_model := lit "gpt-4o-mini";
         req_messages :=
           [ {| role := lit "system";
                content := get_system_prompt (lit "brief") |};
             {| role := lit "user";
                content := lit "Please summarize the following content:"
                           ++ [LF; LF] ++ lit "Hi" |} ];
         req_temperature := (3 # 10)%Q |} ].
Proof.
  apply (proj2 (summarize_content_request 1 ready_world (lit "Hi")
                  (lit "brief") (lit "gpt-4o-mini") (lit "sk-1") 0) 0).
  - intros i Hi; lia.
  - reflexivity.
  - reflexivity.
  - lia.
Defined.


(** ** The driver: [--check-config] *)

Lemma can_encode_mark (w : World) (c : char) (s : str) :
  forallb ascii s = true ->
  can_encode w (c :: s) = ascii c || stdout_encodes w c.
Proof.
  intros H. unfold can_encode. cbn [forallb].
  fold (can_encode w s). rewrite (can_encode_ascii w s H).
  apply andb_true_r.
Qed.

Lemma bind_print {B} (w : World) (s : str) (k : unit -> M B) (n : nat) :
  bind (print w s) k n
  = if can_encode w s then prepend [Stdout s] (k tt n)
    else (Exit 1%Z, n, [Traceback (lit "UnicodeEncodeError")]).
Proof. unfold print. destruct (can_encode w s); reflexivity. Qed.

(** What [--check-config] does, case by case. *)
Lemma check_config_result (fuel : nat) (w : World) (args : Args) :
  check_config args = true ->
  run fuel w args
  = if truthy_opt (environ w OPENAI_API_KEY) then
      if stdout_encodes w CHECK then
        if importable w Openai 0 then
          (Some 0%Z,
           [ Stdout (CHECK :: lit " OPENAI_API_KEY is set");
             Import Openai;
             Stdout (CHECK :: lit " OpenAI package is available") ])
        else if stdout_encodes w CROSS then
          (Some 0%Z,
           [ Stdout (CHECK :: lit " OPENAI_API_KEY is set");
             Import Openai;
             Stdout (CROSS :: lit " OpenAI package not installed (will auto-install when needed)") ])
        else
          (Some 1%Z,
           [ Stdout (CHECK :: lit " OPENAI_API_KEY is set");
             Import Openai;
             Traceback (lit "UnicodeEncodeError") ])
      else (Some 1%Z, [Traceback (lit "UnicodeEncodeError")])
    else if stdout_encodes w CROSS then
      (Some 1%Z,
       [ Stdout (CROSS :: lit " OPENAI_API_KEY is not set");
         Stdout (LF :: lit "Please set your API key:");
         Stdout (lit "  export OPENAI_API_KEY='sk-...'") ])
    else (Some 1%Z, [Traceback (lit "UnicodeEncodeError")]).
Proof.
  intros Hmode. unfold run, main. rewrite Hmode.
  destruct (truthy_opt (environ w OPENAI_API_KEY)).
  - rewrite bind_print, can_encode_mark by reflexivity.
    change (ascii CHECK) with false. cbn [orb].
    destruct (stdout_encodes w CHECK) eqn:Hc; [|reflexivity].
    unfold check_openai_available.
    unfold bind at 1. rewrite bind_try_import.
    destruct (importable w Openai 0); cbn [ret prepend app].
    + rewrite bind_print, can_encode_mark by reflexivity.
      change (ascii CHECK) with false. cbn [orb]. rewrite Hc. reflexivity.
    + rewrite bind_print, can_encode_mark by reflexivity.
      change (ascii CROSS) with false. cbn [orb].
      destruct (stdout_encodes w CROSS); reflexivity.
  - rewrite bind_print, can_encode_mark by reflexivity.
    change (ascii CROSS) with false. cbn [orb].
    destruct (stdout_encodes w CROSS); [|reflexivity].
    rewrite !print_ascii by reflexivity. reflexivity.
Qed.

Lemma truthy_opt_iff (o : option str) :
  truthy_opt o = true <-> exists v, o = Some v /\ v <> [].
Proof.
  destruct o as [[|c v]|]; simpl; split; try discriminate.
  - intros (v & E & H). injection E as <-. contradiction.
  - intros _. exists (c :: v). split; [reflexivity | discriminate].
  - reflexivity.
  - intros (v & E & _). discriminate E.
Qed.







(** On a standard output limited to ASCII the first status line cannot be
    printed: the run ends on the traceback with status 1, though the
    credential is set. *)
Lemma check_config_ascii_stdout :
  run 0 (ascii_stdout ready_world) check_config_args
  = (Some 1%Z, [Traceback (lit "UnicodeEncodeError")]).
Proof. reflexivity. Qed.

(** ** The driver: the default mode *)

(** C7, as the code has it.  In the default mode the file-path argument is
    checked first.  When it is given (and not empty) and the credential
    variable is unset, the script prints the four lines of guidance on how to
    set the credential to the error stream and exits with status 1; it has
    touched no file by then. *)
Theorem missing_credential_exit (fuel : nat) (w : World) (args : Args)
    (p : str)
    (Hmode : check_config args = false)
    (Hpath : file_path args = Some p)
    (Hgiven : p <> [])
    (Hunset : environ w OPENAI_API_KEY = None) :
  run fuel w args = (Some 1%Z, guidance)
  /\ In (Stderr (lit "  export OPENAI_API_KEY='sk-...'")) (snd (run fuel w args))
  /\ file_accesses (snd (run fuel w args)) = [].
Proof.
  assert (E : run fuel w args = (Some 1%Z, guidance)).
  { unfold run, main. rewrite Hmode, Hpath.
    destruct p as [|c p]; [contradiction|]. cbn [truthy_opt truthy negb].
    unfold get_api_key. rewrite Hunset. reflexivity. }
  rewrite E. split; [reflexivity|]. split; [|reflexivity].
  cbn [snd guidance]. right; right; left; reflexivity.
Qed.

Lemma missing_credential_exit_witness :
  run 0 bare_world (default_args (Some (lit "notes.txt"))) = (Some 1%Z, guidance)
  /\ In (Stderr (lit "  export OPENAI_API_KEY='sk-...'"))
       (snd (run 0 bare_world (default_args (Some (lit "notes.txt")))))
  /\ file_accesses (snd (run 0 bare_world (default_args (Some (lit "notes.txt")))))
     = [].
Proof.
  apply (missing_credential_exit 0 bare_world
           (default_args (Some (lit "notes.txt"))) (lit "notes.txt")).
  - reflexivity.
  - reflexivity.
  - vm_compute; discriminate.
  - reflexivity.
Defined.

(** C7 as stated fails: in the default mode without a file-path argument
    and without the credential, the script prints the usage text and exits
    with status 1; nothing about the credential is printed. *)
Lemma no_file_path_no_guidance :
  check_config (default_args None) = false
  /\ environ bare_world OPENAI_API_KEY = None
  /\ run 0 bare_world (default_args None)
     = (Some 1%Z, [Stdout (help_text bare_world)])
  /\ ~ In (Stderr (lit "  export OPENAI_API_KEY='sk-...'"))
         (snd (run 0 bare_world (default_args None))).
Proof.
  repeat split. intros [H|[]]. discriminate H.
Qed.

Section DefaultMode.

Variable fuel : nat.
Variable w : World.
Variable args : Args.
Variables p v : str.
Hypothesis Hmode : check_config args = false.
Hypothesis Hpath : file_path args = Some p.
Hypothesis Hgiven : p <> [].
Hypothesis Hset : environ w OPENAI_API_KEY = Some v.
Hypothesis Hvalue : v <> [].

(** A failed read ends the run with status 1 and nothing more printed. *)
Lemma run_read_failed (n1 : nat) (t : list event) :
  read_file fuel w p 0 = (Ret None, n1, t) ->
  run fuel w args = (Some 1%Z, Stderr (lit "Reading file: " ++ p) :: t).
Proof.
  intros Hread. unfold run, main. rewrite Hmode, Hpath.
  destruct p as [|c p']; [contradiction|]. cbn [truthy_opt truthy negb value].
  unfold get_api_key. rewrite Hset.
  destruct v as [|c' v']; [contradiction|]. cbn [truthy_opt truthy negb value].
  rewrite bind_ret. unfold eprint. rewrite bind_emit.
  unfold bind at 1. rewrite Hread. cbn [sys_exit prepend].
  rewrite app_nil_r. reflexivity.
Qed.

(** A blank text ends the run with status 1 after one more diagnostic. *)
Lemma run_read_blank (text : str) (n1 : nat) (t : list event) :
  read_file fuel w p 0 = (Ret (Some text), n1, t) ->
  strip text = [] ->
  run fuel w args
  = (Some 1%Z,
     Stderr (lit "Reading file: " ++ p) :: t
     ++ [Stderr (lit "ERROR: File appears to be empty or unreadable")]).
Proof.
  intros Hread Hblank. unfold run, main. rewrite Hmode, Hpath.
  destruct p as [|c p']; [contradiction|]. cbn [truthy_opt truthy negb value].
  unfold get_api_key. rewrite Hset.
  destruct v as [|c' v']; [contradiction|]. cbn [truthy_opt truthy negb value].
  rewrite bind_ret. unfold eprint. rewrite bind_emit.
  unfold bind at 1. rewrite Hread, Hblank. cbn [truthy negb].
  rewrite bind_emit. reflexivity.
Qed.

End DefaultMode.

(** ** The content reader *)

Lemma read_file_missing_result (fuel : nat) (w : World) (p : str) (n : nat) :
  path_exists w p && path_is_file w p = false ->
  read_file fuel w p n
  = (Ret None, n,
     Stat p ::
     (if path_exists w p
      then [Stat p; Stderr (lit "ERROR: Path is not a file: " ++ path_str w p)]
      else [Stderr (lit "ERROR: File not found: " ++ path_str w p)])).
Proof.
  intros H. unfold read_file. rewrite bind_emit.
  destruct (path_exists w p); cbn [negb andb] in H |- *.
  - rewrite bind_emit, H. reflexivity.
  - reflexivity.
Qed.

(** C6.  For a path that does not exist [read_file] returns no content
    after the diagnostic "ERROR: File not found: <path>" on the error stream,
    and for an existing path that is not a regular file it returns no content
    after "ERROR: Path is not a file: <path>"; the failure is the absent
    result, its kind is told by the diagnostic.  A run that reaches the read
    (default mode, path given, credential set) then exits with status 1,
    having printed nothing on standard output and sent no request. *)
Theorem read_file_missing (fuel : nat) (w : World) (p : str) (n : nat)
    (Hmissing : path_exists w p && path_is_file w p = false) :
  read_file fuel w p n
  = (Ret None, n,
     Stat p ::
     (if path_exists w p
      then [Stat p; Stderr (lit "ERROR: Path is not a file: " ++ path_str w p)]
      else [Stderr (lit "ERROR: File not found: " ++ path_str w p)]))
  /\ (forall args v,
        check_config args = false -> file_path args = Some p -> p <> [] ->
        environ w OPENAI_API_KEY = Some v -> v <> [] ->
        fst (run fuel w args) = Some 1%Z
        /\ stderr_of (snd (run fuel w args))
           = [ lit "Reading file: " ++ p;
               (if path_exists w p
                then lit "ERROR: Path is not a file: " ++ path_str w p
                else lit "ERROR: File not found: " ++ path_str w p) ]
        /\ stdout_of (snd (run fuel w args)) = []
        /\ api_calls (snd (run fuel w args)) = []).
Proof.
  split; [exact (read_file_missing_result fuel w p n Hmissing)|].
  intros args v Hmode Hpath Hgiven Hset Hvalue.
  rewrite (run_read_failed fuel w args p v Hmode Hpath Hgiven Hset Hvalue 0 _
             (read_file_missing_result fuel w p 0 Hmissing)).
  destruct (path_exists w p); repeat split; reflexivity.
Qed.

Lemma read_file_missing_witness :
  read_file 0 ready_world (lit "gone.txt") 0
  = (Ret None, 0,
     [Stat (lit "gone.txt"); Stderr (lit "ERROR: File not found: gone.txt")])
  /\ fst (run 0 ready_world (default_args (Some (lit "gone.txt")))) = Some 1%Z
  /\ stderr_of (snd (run 0 ready_world (default_args (Some (lit "gone.txt")))))
     = [lit "Reading file: gone.txt"; lit "ERROR: File not found: gone.txt"]
  /\ stdout_of (snd (run 0 ready_world (default_args (Some (lit "gone.txt")))))
     = []
  /\ api_calls (snd (run 0 ready_world (default_args (Some (lit "gone.txt")))))
     = [].
Proof.
  destruct (read_file_missing 0 ready_world (lit "gone.txt") 0 eq_refl)
    as [Hread Hrun].
  split; [exact Hread|].
  apply (Hrun (default_args (Some (lit "gone.txt"))) (lit "sk-1")).
  - reflexivity.
  - reflexivity.
  - vm_compute; discriminate.
  - reflexivity.
  - vm_compute; discriminate.
Defined.

(** What a reader does: nothing but reading, importing its library and
    installing. *)
Lemma forallb_prepend {A} (f : event -> bool) (pre : list event)
    (r : outcome A * nat * list event) :
  forallb f pre = true -> forallb f (snd r) = true ->
  forallb f (snd (prepend pre r)) = true.
Proof.
  intros Hp Hr. rewrite snd_prepend, forallb_app, Hp, Hr. reflexivity.
Qed.

Lemma try_encodings_events (w : World) (p : str) (encs : list encoding)
    (n : nat) :
  forallb reader_event (snd (try_encodings w p encs n)) = true.
Proof.
  induction encs as [|e encs IH]; [reflexivity|].
  cbn [try_encodings]. rewrite bind_emit.
  apply forallb_prepend; [reflexivity|].
  destruct (file_bytes w p) as [msg|bs]; [reflexivity|].
  destruct (decode e bs); [reflexivity | exact IH].
Qed.

Lemma reader_perform_events (fuel : nat) (w : World) (op : operation)
    (n : nat) :
  library_of op <> Openai ->
  forallb reader_event (snd (perform fuel w op n)) = true.
Proof.
  intros Hlib. revert n.
  assert (Hattempt : forall n,
            forallb reader_event (attempt_events w op n) = true).
  { intros n. unfold attempt_events.
    destruct op as [p|p|c d m k]; cbn [library_of body fst];
      [| |exfalso; apply Hlib; reflexivity];
      destruct (importable w _ n); reflexivity. }
  assert (Hround : forallb reader_event (install_round (library_of op)) = true).
  { destruct op; [reflexivity | reflexivity |
                  exfalso; apply Hlib; reflexivity]. }
  induction fuel as [|fuel IH]; intros n.
  - rewrite perform_limit.
    destruct op; [reflexivity | reflexivity |
                  exfalso; apply Hlib; reflexivity].
  - destruct (attempt_fails w op n) eqn:E.
    + rewrite perform_retry by exact E.
      apply forallb_prepend; [|apply IH].
      rewrite forallb_app, Hattempt, Hround. reflexivity.
    + rewrite perform_attempt by exact E. cbn [snd].
      rewrite forallb_app, Hattempt. cbn [andb].
      unfold attempt_result.
      destruct (snd (body w op)) as [[msg|msg]|r]; try reflexivity.
      destruct op; [reflexivity | reflexivity |
                    exfalso; apply Hlib; reflexivity].
Qed.

Lemma read_file_events (fuel : nat) (w : World) (p : str) (n : nat) :
  forallb reader_event (snd (read_file fuel w p n)) = true.
Proof.
  unfold read_file. rewrite bind_emit. apply forallb_prepend; [reflexivity|].
  destruct (path_exists w p); cbn [negb]; [|reflexivity].
  rewrite bind_emit. apply forallb_prepend; [reflexivity|].
  destruct (path_is_file w p); cbn [negb]; [|reflexivity].
  destruct (str_eqb (lower (path_suffix w p)) (lit ".pdf")).
  - apply (reader_perform_events fuel w (ReadPdf p) n). discriminate.
  - destruct (existsb (str_eqb (lower (path_suffix w p)))
                [lit ".docx"; lit ".doc"]).
    + destruct (str_eqb (lower (path_suffix w p)) (lit ".doc")).
      * unfold eprint. rewrite bind_emit.
        apply forallb_prepend; [reflexivity|].
        apply (reader_perform_events fuel w (ReadDocx p) n). discriminate.
      * rewrite bind_ret.
        apply (reader_perform_events fuel w (ReadDocx p) n). discriminate.
    + apply try_encodings_events.
Qed.

Lemma reader_trace (t : list event) :
  forallb reader_event t = true ->
  api_calls t = [] /\ imports Openai t = 0
  /\ (forall s, In (Stdout s) t -> In s install_lines).
Proof.
  induction t as [|e t IH]; intros H.
  - repeat split. intros s [].
  - cbn [forallb] in H. apply andb_true_iff in H. destruct H as [He Ht].
    destruct (IH Ht) as (Hc & Hi & Hs).
    destruct e as [s'|s'| |[| |]|q|q|r|x]; try discriminate He;
      (repeat split; [exact Hc | exact Hi |]);
      intros s [E|Hin]; try discriminate E; try (apply Hs; exact Hin).
    injection E as ->. cbn [reader_event] in He.
    apply existsb_exists in He. destruct He as (l & Hl & Heq).
    apply str_eqb_eq in Heq. subst l. exact Hl.
Qed.

(** C8.  When the content read from the file is empty or made of whitespace
    only, the default mode prints "ERROR: File appears to be empty or
    unreadable" on the error stream and exits with status 1.  The client
    package is not imported and no request is sent; standard output holds
    nothing but what an installation printed, so no result block. *)
Theorem blank_content_exit (fuel : nat) (w : World) (args : Args)
    (p v text : str) (n1 : nat) (t : list event)
    (Hmode : check_config args = false)
    (Hpath : file_path args = Some p)
    (Hgiven : p <> [])
    (Hset : environ w OPENAI_API_KEY = Some v)
    (Hvalue : v <> [])
    (Hread : read_file fuel w p 0 = (Ret (Some text), n1, t))
    (Hblank : forallb isspace text = true) :
  run fuel w args
  = (Some 1%Z,
     Stderr (lit "Reading file: " ++ p) :: t
     ++ [Stderr (lit "ERROR: File appears to be empty or unreadable")])
  /\ api_calls (snd (run fuel w args)) = []
  /\ imports Openai (snd (run fuel w args)) = 0
  /\ (forall s, In (Stdout s) (snd (run fuel w args)) -> In s install_lines).
Proof.
  assert (Hstrip : strip text = []) by (apply strip_nil_iff; exact Hblank).
  rewrite (run_read_blank fuel w args p v Hmode Hpath Hgiven Hset Hvalue
             text n1 t Hread Hstrip).
  split; [reflexivity|]. apply reader_trace. cbn [snd forallb reader_event].
  rewrite forallb_app.
  pose proof (read_file_events fuel w p 0) as He. rewrite Hread in He.
  cbn [snd] in He. rewrite He. reflexivity.
Qed.

Lemma blank_content_exit_witness :
  run 0 blank_file_world (default_args (Some (lit "blank.txt")))
  = (Some 1%Z,
     [ Stderr (lit "Reading file: blank.txt");
       Stat (lit "blank.txt"); Stat (lit "blank.txt"); Open (lit "blank.txt");
       Stderr (lit "ERROR: File appears to be empty or unreadable") ]).
Proof.
  apply (blank_content_exit 0 blank_file_world
           (default_args (Some (lit "blank.txt")))
           (lit "blank.txt") (lit "sk-1") [32; 32; 10]%N 0
           [Stat (lit "blank.txt"); Stat (lit "blank.txt");
            Open (lit "blank.txt")]).
  - reflexivity.
  - reflexivity.
  - vm_compute; discriminate.
  - reflexivity.
  - vm_compute; discriminate.
  - reflexivity.
  - reflexivity.
Defined.


(** ** The run of the default mode, stage by stage *)

Lemma printed_block (w : World) (d s : str) (n : nat) :
  (print w (LF :: rule) ;;
   print w (lit "SUMMARY (" ++ upper d ++ lit ")") ;;
   print w (rule ++ [LF]) ;;
   print w s ;;
   print w (LF :: rule) ;;
   ret 0%Z) n
  = ((if fst (printed w (block_lines d s)) then Ret 0%Z else Exit 1%Z), n,
     snd (printed w (block_lines d s))).
Proof.
  unfold block_lines. cbn [printed]. rewrite !bind_print.
  destruct (can_encode w (LF :: rule));
    destruct (can_encode w (lit "SUMMARY (" ++ upper d ++ lit ")"));
    destruct (can_encode w (rule ++ [LF]));
    destruct (can_encode w s);
    reflexivity.
Qed.

Section DefaultRun.

Variable fuel : nat.
Variable w : World.
Variable args : Args.
Variables p v : str.
Hypothesis Hmode : check_config args = false.
Hypothesis Hpath : file_path args = Some p.
Hypothesis Hgiven : p <> [].
Hypothesis Hset : environ w OPENAI_API_KEY = Some v.
Hypothesis Hvalue : v <> [].

Lemma run_stages :
  run fuel w args
  = match read_file fuel w p 0 with
    | (Ret None, _, t) => (Some 1%Z, Stderr (lit "Reading file: " ++ p) :: t)
    | (Ret (Some text), n1, t) =>
      if truthy (strip text) then
        match summarize_content fuel w text (detail args) (model args) v n1 with
        | (Ret (Some summary), _, t2) =>
          (Some (if fst (printed w (block_lines (detail args) summary))
                 then 0%Z else 1%Z),
           Stderr (lit "Reading file: " ++ p) :: t
           ++ progress_lines text (detail args) (model args) ++ t2
           ++ snd (printed w (block_lines (detail args) summary)))
        | (Ret None, _, t2) =>
          (Some 1%Z,
           Stderr (lit "Reading file: " ++ p) :: t
           ++ progress_lines text (detail args) (model args) ++ t2)
        | (Exit code, _, t2) =>
          (Some code,
           Stderr (lit "Reading file: " ++ p) :: t
           ++ progress_lines text (detail args) (model args) ++ t2)
        end
      else
        (Some 1%Z,
         Stderr (lit "Reading file: " ++ p) :: t
         ++ [Stderr (lit "ERROR: File appears to be empty or unreadable")])
    | (Exit code, _, t) => (Some code, Stderr (lit "Reading file: " ++ p) :: t)
    end.
Proof.
  unfold run, main. rewrite Hmode, Hpath.
  destruct p as [|c p']; [contradiction|]. cbn [truthy_opt truthy negb value].
  unfold get_api_key. rewrite Hset.
  destruct v as [|c' v']; [contradiction|]. cbn [truthy_opt truthy negb value].
  rewrite bind_ret. unfold eprint. rewrite bind_emit.
  unfold bind at 1.
  destruct (read_file fuel w (c :: p') 0) as [[o n1] t].
  destruct o as [[text|]|code];
    try (cbn [prepend app sys_exit]; rewrite ?app_nil_r; reflexivity).
  destruct (truthy (strip text)); cbn [negb].
  - rewrite !bind_emit. unfold bind at 1.
    destruct (summarize_content fuel w text (detail args) (model args)
                (c' :: v') n1) as [[o2 n2] t2].
    destruct o2 as [[summary|]|code]; cbn [prepend app sys_exit];
      rewrite ?app_nil_r; try reflexivity.
    rewrite printed_block.
    destruct (fst (printed w (block_lines (detail args) summary)));
      reflexivity.
  - rewrite bind_emit. reflexivity.
Qed.

End DefaultRun.

(** The other ways a run can go. *)
Lemma run_no_path (fuel : nat) (w : World) (args : Args) :
  check_config args = false ->
  truthy_opt (file_path args) = false ->
  run fuel w args = (Some 1%Z, [Stdout (help_text w)]).
Proof.
  intros Hmode Hpath. unfold run, main. rewrite Hmode, Hpath. reflexivity.
Qed.

Lemma run_no_credential (fuel : nat) (w : World) (args : Args) :
  check_config args = false ->
  truthy_opt (file_path args) = true ->
  truthy_opt (environ w OPENAI_API_KEY) = false ->
  run fuel w args = (Some 1%Z, guidance).
Proof.
  intros Hmode Hpath Hkey. unfold run, main. rewrite Hmode, Hpath.
  cbn [negb]. unfold get_api_key. rewrite Hkey. reflexivity.
Qed.

(** Every run is of one of four kinds. *)
Lemma run_modes (w : World) (args : Args) :
  check_config args = true
  \/ (check_config args = false /\ truthy_opt (file_path args) = false)
  \/ (check_config args = false /\ truthy_opt (file_path args) = true
      /\ truthy_opt (environ w OPENAI_API_KEY) = false)
  \/ (exists p v,
        check_config args = false /\ file_path args = Some p /\ p <> []
        /\ environ w OPENAI_API_KEY = Some v /\ v <> []).
Proof.
  destruct (check_config args); [left; reflexivity|]. right.
  destruct (truthy_opt (file_path args)) eqn:Hp; [|left; split; reflexivity].
  right.
  destruct (truthy_opt (environ w OPENAI_API_KEY)) eqn:Hk;
    [|left; repeat split; reflexivity].
  right. apply truthy_opt_iff in Hp. apply truthy_opt_iff in Hk.
  destruct Hp as (p & Hp & Hp'). destruct Hk as (v & Hk & Hk').
  exists p, v. repeat split; assumption.
Qed.

(** ** What the stages never do *)

Lemma try_encodings_returns (w : World) (p : str) (encs : list encoding)
    (n : nat) :
  exists r, fst (fst (try_encodings w p encs n)) = Ret r.
Proof.
  induction encs as [|e encs IH]; [eexists; reflexivity|].
  cbn [try_encodings]. rewrite bind_emit, fst_prepend.
  destruct (file_bytes w p) as [msg|bs]; [eexists; reflexivity|].
  destruct (decode e bs); [eexists; reflexivity | exact IH].
Qed.

(** The readers and the client return to [main]: none of them ends the
    process. *)
Lemma read_file_returns (fuel : nat) (w : World) (p : str) (n : nat) :
  exists r, fst (fst (read_file fuel w p n)) = Ret r.
Proof.
  unfold read_file. rewrite bind_emit, fst_prepend.
  destruct (path_exists w p); cbn [negb]; [|eexists; reflexivity].
  rewrite bind_emit, fst_prepend.
  destruct (path_is_file w p); cbn [negb]; [|eexists; reflexivity].
  destruct (str_eqb (lower (path_suffix w p)) (lit ".pdf")).
  - exact (proj2 (perform_bounded fuel w (ReadPdf p) n)).
  - destruct (existsb (str_eqb (lower (path_suffix w p)))
                [lit ".docx"; lit ".doc"]).
    + destruct (str_eqb (lower (path_suffix w p)) (lit ".doc")).
      * unfold eprint. rewrite bind_emit, fst_prepend.
        exact (proj2 (perform_bounded fuel w (ReadDocx p) n)).
      * rewrite bind_ret. exact (proj2 (perform_bounded fuel w (ReadDocx p) n)).
    + apply try_encodings_returns.
Qed.

Lemma summarize_content_returns (fuel : nat) (w : World) (c d m k : str)
    (n : nat) :
  exists r, fst (fst (summarize_content fuel w c d m k n)) = Ret r.
Proof. exact (proj2 (perform_bounded fuel w (Summarize c d m k) n)). Qed.

Lemma reader_event_quiet (t : list event) :
  forallb reader_event t = true -> forallb quiet_stdout t = true.
Proof.
  induction t as [|e t IH]; [reflexivity|].
  cbn [forallb]. rewrite !andb_true_iff. intros [He Ht].
  split; [|exact (IH Ht)].
  destruct e as [s|s| |l|q|q|r|x]; try reflexivity; exact He.
Qed.

Lemma perform_quiet (fuel : nat) (w : World) (op : operation) (n : nat) :
  forallb quiet_stdout (snd (perform fuel w op n)) = true.
Proof.
  assert (Hattempt : forall n,
            forallb quiet_stdout (attempt_events w op n) = true).
  { intros n0. unfold attempt_events.
    destruct op as [p|p|c d m k]; cbn [library_of body fst];
      destruct (importable w _ n0); try reflexivity.
    destruct (client_init w k); [reflexivity|]. cbn [fst].
    unfold truncation_note. destruct (max_chars <? len c)%N; reflexivity. }
  assert (Hround : forallb quiet_stdout (install_round (library_of op)) = true)
    by (destruct op; reflexivity).
  revert n; induction fuel as [|fuel IH]; intros n.
  - rewrite perform_limit. destruct op; reflexivity.
  - destruct (attempt_fails w op n) eqn:E.
    + rewrite perform_retry by exact E.
      apply forallb_prepend; [|apply IH].
      rewrite forallb_app, Hattempt, Hround. reflexivity.
    + rewrite perform_attempt by exact E. cbn [snd].
      rewrite forallb_app, Hattempt. cbn [andb].
      unfold attempt_result.
      destruct (snd (body w op)) as [[msg|msg]|r]; try reflexivity.
      destruct op; reflexivity.
Qed.

Lemma summarize_content_quiet (fuel : nat) (w : World) (c d m k : str)
    (n : nat) :
  forallb quiet_stdout (snd (summarize_content fuel w c d m k n)) = true.
Proof. exact (perform_quiet fuel w (Summarize c d m k) n). Qed.

Lemma quiet_stdout_lines (t : list event) (s : str) :
  forallb quiet_stdout t = true -> In (Stdout s) t -> In s install_lines.
Proof.
  induction t as [|e t IH]; intros H Hin; [destruct Hin|].
  cbn [forallb] in H. apply andb_true_iff in H. destruct H as [He Ht].
  destruct Hin as [E|Hin]; [|exact (IH Ht Hin)].
  subst e. cbn [quiet_stdout] in He.
  apply existsb_exists in He. destruct He as (l & Hl & Heq).
  apply str_eqb_eq in Heq. subst l. exact Hl.
Qed.

Lemma rule_not_install_line : ~ In (LF :: rule) install_lines.
Proof.
  intros H. vm_compute in H.
  destruct H as [H|[H|[]]]; discriminate H.
Qed.

(** A block that did not go out whole ends on the traceback. *)
Lemma printed_failed (w : World) (ls : list str) :
  fst (printed w ls) = false ->
  exists pre, snd (printed w ls)
              = pre ++ [Traceback (lit "UnicodeEncodeError")].
Proof.
  induction ls as [|l ls IH]; [discriminate|].
  cbn [printed]. destruct (can_encode w l); [|intros _; exists []; reflexivity].
  destruct (printed w ls) as [ok t]. cbn [fst snd] in IH |- *.
  intros H. destruct (IH H) as [pre Hpre]. exists (Stdout l :: pre).
  rewrite Hpre. reflexivity.
Qed.

Lemma printed_whole (w : World) (ls : list str) :
  fst (printed w ls) = true -> snd (printed w ls) = map Stdout ls.
Proof.
  induction ls as [|l ls IH]; [reflexivity|].
  cbn [printed]. destruct (can_encode w l); [|discriminate].
  destruct (printed w ls) as [ok t]. cbn [fst snd] in IH |- *.
  intros H. rewrite (IH H). reflexivity.
Qed.

(** X1.  Once the arguments are parsed, every run ends with status 0 or 1;
    the whole script ends with status 0, 1 or 2, and 2 comes from the parsing
    of the command line only. *)
Theorem run_exit_status (fuel : nat) (w : World) :
  (forall args,
     fst (run fuel w args) = Some 0%Z \/ fst (run fuel w args) = Some 1%Z)
  /\ (forall argv,
        (fst (script fuel w argv) = Some 0%Z
         \/ fst (script fuel w argv) = Some 1%Z
         \/ fst (script fuel w argv) = Some 2%Z)
        /\ (fst (script fuel w argv) = Some 2%Z ->
            exists msg, parse_args w argv = Rejected msg)).
Proof.
  assert (Hrun : forall args,
            fst (run fuel w args) = Some 0%Z
            \/ fst (run fuel w args) = Some 1%Z).
  { intros args.
    destruct (run_modes w args)
      as [Hc|[[Hc Hp]|[(Hc & Hp & Hk)|(p & v & Hc & Hp & Hp' & Hk & Hk')]]].
    - rewrite (check_config_result fuel w args Hc).
      destruct (truthy_opt (environ w OPENAI_API_KEY));
        destruct (stdout_encodes w CHECK);
        destruct (stdout_encodes w CROSS);
        destruct (importable w Openai 0);
        first [left; reflexivity | right; reflexivity].
    - rewrite (run_no_path fuel w args Hc Hp). right; reflexivity.
    - rewrite (run_no_credential fuel w args Hc Hp Hk). right; reflexivity.
    - rewrite (run_stages fuel w args p v Hc Hp Hp' Hk Hk').
      destruct (read_file_returns fuel w p 0) as [r Hr].
      destruct (read_file fuel w p 0) as [[o n1] t]. cbn [fst] in Hr.
      subst o. destruct r as [text|]; [|right; reflexivity].
      destruct (truthy (strip text)); [|right; reflexivity].
      destruct (summarize_content_returns fuel w text (detail args)
                  (model args) v n1) as [r2 Hr2].
      destruct (summarize_content fuel w text (detail args) (model args) v n1)
        as [[o2 n2] t2]. cbn [fst] in Hr2. subst o2.
      destruct r2 as [summary|]; [|right; reflexivity].
      destruct (fst (printed w (block_lines (detail args) summary)));
        [left | right]; reflexivity. }
  split; [exact Hrun|].
  intros argv. unfold script.
  destruct (parse_args w argv) as [msg|  |args].
  - split; [right; right; reflexivity | intros _; exists msg; reflexivity].
  - split; [left; reflexivity | intros E; discriminate E].
  - split.
    + destruct (Hrun args) as [E|E]; rewrite E;
        [left | right; left]; reflexivity.
    + intros E. destruct (Hrun args) as [E'|E']; rewrite E' in E;
        discriminate E.
Qed.

Lemma run_exit_status_witness :
  fst (script 0 bare_world [lit "--bogus"]) = Some 2%Z
  /\ exists msg, parse_args bare_world [lit "--bogus"] = Rejected msg.
Proof.
  split; [reflexivity|].
  apply (proj2 (proj2 (run_exit_status 0 bare_world) [lit "--bogus"])).
  reflexivity.
Defined.

(** X2.  In the default mode, with a path and a credential, the run exits
    with status 0 exactly when it ends on the complete result block. *)
Theorem result_block_iff_success (fuel : nat) (w : World) (args : Args)
    (p v : str)
    (Hmode : check_config args = false)
    (Hpath : file_path args = Some p)
    (Hgiven : p <> [])
    (Hset : environ w OPENAI_API_KEY = Some v)
    (Hvalue : v <> []) :
  fst (run fuel w args) = Some 0%Z
  <-> exists summary pre,
        snd (run fuel w args) = pre ++ result_block (detail args) summary.
Proof.
  rewrite (run_stages fuel w args p v Hmode Hpath Hgiven Hset Hvalue).
  pose proof (reader_event_quiet _ (read_file_events fuel w p 0)) as Hq.
  destruct (read_file_returns fuel w p 0) as [r Hr].
  assert (Hends : forall (front : list event) d s pre,
            forallb quiet_stdout front = true ->
            front = pre ++ result_block d s -> False).
  { intros front d s pre Hfront E. apply rule_not_install_line.
    apply (quiet_stdout_lines front _ Hfront). rewrite E.
    apply in_or_app. right. left. reflexivity. }
  assert (Htail : forall (front : list event) (e : event) d s pre,
            e <> Stdout (LF :: rule) ->
            front ++ [e] = pre ++ result_block d s -> False).
  { intros front e d s pre He E.
    change (result_block d s)
      with ([ Stdout (LF :: rule);
              Stdout (lit "SUMMARY (" ++ upper d ++ lit ")");
              Stdout (rule ++ [LF]); Stdout s ] ++ [Stdout (LF :: rule)]) in E.
    rewrite app_assoc in E. apply app_inj_tail in E. exact (He (proj2 E)). }
  destruct (read_file fuel w p 0) as [[o n1] t]. cbn [snd fst] in Hq, Hr.
  subst o.
  set (reading := Stderr (lit "Reading file: " ++ p)).
  destruct r as [text|].
  - destruct (truthy (strip text)).
    + pose proof (summarize_content_quiet fuel w text (detail args)
                    (model args) v n1) as Hq2.
      destruct (summarize_content_returns fuel w text (detail args)
                  (model args) v n1) as [r2 Hr2].
      destruct (summarize_content fuel w text (detail args) (model args) v n1)
        as [[o2 n2] t2].
      cbn [snd fst] in Hq2, Hr2. subst o2.
      destruct r2 as [summary|]; cbn [fst snd].
      * destruct (fst (printed w (block_lines (detail args) summary))) eqn:Hp.
        -- split; [intros _|reflexivity].
           exists summary,
             (reading :: t ++ progress_lines text (detail args) (model args)
              ++ t2).
           rewrite (printed_whole _ _ Hp). cbn [app].
           rewrite <- !app_assoc. reflexivity.
        -- split; [discriminate|]. intros (s & pre & E). exfalso.
           destruct (printed_failed _ _ Hp) as [pre' Hpre']. rewrite Hpre' in E.
           apply (Htail (reading :: t
                         ++ progress_lines text (detail args) (model args)
                         ++ t2 ++ pre')
                    (Traceback (lit "UnicodeEncodeError")) (detail args) s pre);
             [discriminate|].
           rewrite <- E. cbn [app]. rewrite <- !app_assoc. reflexivity.
      * split; [discriminate|]. intros (s & pre & E). exfalso.
        apply (Hends _ (detail args) s pre) in E; [exact E|].
        cbn [forallb quiet_stdout reading]. rewrite !forallb_app, Hq, Hq2.
        reflexivity.
    + cbn [fst snd]. split; [discriminate|]. intros (s & pre & E). exfalso.
      apply (Htail (reading :: t)
               (Stderr (lit "ERROR: File appears to be empty or unreadable"))
               (detail args) s pre); [discriminate|].
      rewrite <- E. reflexivity.
  - cbn [fst snd]. split; [discriminate|]. intros (s & pre & E). exfalso.
    apply (Hends _ (detail args) s pre) in E; [exact E|].
    cbn [forallb quiet_stdout reading]. exact Hq.
Qed.

Lemma result_block_iff_success_witness :
  fst (run 1 greeting_world (brief_args (lit "a.txt"))) = Some 0%Z
  <-> exists summary pre,
        snd (run 1 greeting_world (brief_args (lit "a.txt")))
        = pre ++ result_block (detail (brief_args (lit "a.txt"))) summary.
Proof.
  apply (result_block_iff_success 1 greeting_world (brief_args (lit "a.txt"))
           (lit "a.txt") (lit "sk-1")).
  - reflexivity.
  - reflexivity.
  - vm_compute; discriminate.
  - reflexivity.
  - vm_compute; discriminate.
Defined.

(** X3.  With [--check-config] no request is sent.  In any mode a run sends
    at most one request, and only in the default mode, for content that was
    read from the file named in the arguments and is not blank; the request
    is the one built from that content, the detail level and the model. *)
Theorem at_most_one_request (fuel : nat) (w : World) (args : Args) :
  (check_config args = true -> api_calls (snd (run fuel w args)) = [])
  /\ (api_calls (snd (run fuel w args)) = []
      \/ (exists p v text n1 t,
            check_config args = false
            /\ file_path args = Some p /\ p <> []
            /\ environ w OPENAI_API_KEY = Some v /\ v <> []
            /\ read_file fuel w p 0 = (Ret (Some text), n1, t)
            /\ strip text <> []
            /\ api_calls (snd (run fuel w args))
               = [request_for text (detail args) (model args)])).
Proof.
  assert (Hcheck : check_config args = true ->
                   api_calls (snd (run fuel w args)) = []).
  { intros Hc. rewrite (check_config_result fuel w args Hc).
    destruct (truthy_opt (environ w OPENAI_API_KEY));
      destruct (stdout_encodes w CHECK);
      destruct (stdout_encodes w CROSS);
      destruct (importable w Openai 0); reflexivity. }
  split; [exact Hcheck|].
  destruct (run_modes w args)
    as [Hc|[[Hc Hp]|[(Hc & Hp & Hk)|(p & v & Hc & Hp & Hp' & Hk & Hk')]]].
  - left. exact (Hcheck Hc).
  - left. rewrite (run_no_path fuel w args Hc Hp). reflexivity.
  - left. rewrite (run_no_credential fuel w args Hc Hp Hk). reflexivity.
  - rewrite (run_stages fuel w args p v Hc Hp Hp' Hk Hk').
    pose proof (read_file_events fuel w p 0) as Hr.
    apply reader_trace in Hr. destruct Hr as (Hr & _ & _).
    destruct (read_file_returns fuel w p 0) as [r Hret].
    destruct (read_file fuel w p 0) as [[o n1] t] eqn:Hread.
    cbn [snd fst] in Hr, Hret. subst o.
    set (reading := Stderr (lit "Reading file: " ++ p)).
    assert (Hfront : forall rest,
              api_calls (reading :: t ++ rest) = api_calls rest).
    { intros rest. change (reading :: t ++ rest) with ([reading] ++ t ++ rest).
      rewrite !api_calls_app, Hr. reflexivity. }
    destruct r as [text|];
      [|left; cbn [snd]; rewrite <- (app_nil_r t), Hfront; reflexivity].
    destruct (truthy (strip text)) eqn:Hs;
      [|left; cbn [snd]; rewrite Hfront; reflexivity].
    pose proof (summarize_content_calls_any fuel w text (detail args)
                  (model args) v n1) as Hcalls.
    destruct (summarize_content_returns fuel w text (detail args)
                (model args) v n1) as [r2 Hr2].
    destruct (summarize_content fuel w text (detail args) (model args) v n1)
      as [[o2 n2] t2]. cbn [snd fst] in Hcalls, Hr2. subst o2.
    assert (Hprinted : forall ls, api_calls (snd (printed w ls)) = []).
    { induction ls as [|l ls IH]; [reflexivity|]. cbn [printed].
      destruct (can_encode w l); [|reflexivity].
      destruct (printed w ls) as [ok t']. exact IH. }
    assert (Hfinal :
              api_calls
                (snd (match r2 with
                      | Some summary =>
                        (Some (if fst (printed w
                                         (block_lines (detail args) summary))
                               then 0%Z else 1%Z),
                         reading :: t
                         ++ progress_lines text (detail args) (model args)
                         ++ t2
                         ++ snd (printed w (block_lines (detail args) summary)))
                      | None =>
                        (Some 1%Z,
                         reading :: t
                         ++ progress_lines text (detail args) (model args)
                         ++ t2)
                      end)) = api_calls t2).
    { destruct r2 as [summary|]; cbn [snd]; rewrite Hfront, !api_calls_app;
        [rewrite Hprinted, app_nil_r|]; reflexivity. }
    rewrite Hfinal.
    destruct Hcalls as [Hnone|Hone]; [left; exact Hnone|].
    right. exists p, v, text, n1, t. repeat split; try assumption.
    intros E. rewrite E in Hs. discriminate Hs.
Qed.

Lemma at_most_one_request_witness :
  api_calls (snd (run 0 ready_world check_config_args)) = [].
Proof.
  apply (proj1 (at_most_one_request 0 ready_world check_config_args)).
  reflexivity.
Defined.

(** ** End to end *)

Lemma summarize_content_ok (fuel : nat) (w : World) (c d m k : str) (n : nat) :
  importable w Openai n = true ->
  client_init w k = None ->
  summarize_content (S fuel) w c d m k n
  = (match completion w k (request_for c d m) with
     | inr answer => Ret answer
     | inl _ => Ret None
     end, n,
     [Import Openai] ++ truncation_note c ++ [ApiCall (request_for c d m)]
     ++ match completion w k (request_for c d m) with
        | inr _ => []
        | inl e => failure_lines e
        end).
Proof.
  intros Himport Hclient.
  change (summarize_content (S fuel) w c d m k n)
    with (perform (S fuel) w (Summarize c d m k) n).
  rewrite perform_attempt by (apply summarize_attempt_ok; assumption).
  unfold attempt_result, attempt_events. cbn [library_of body handler_lines].
  rewrite Himport, Hclient. cbn [fst snd].
  destruct (completion w k (request_for c d m)); cbn [fst snd app];
    rewrite <- ?app_assoc, ?app_nil_r; reflexivity.
Qed.

Lemma read_file_text (fuel : nat) (w : World) (p : str) (bs : list byte)
    (n : nat) :
  path_exists w p = true ->
  path_is_file w p = true ->
  existsb (str_eqb (lower (path_suffix w p)))
    [lit ".pdf"; lit ".docx"; lit ".doc"] = false ->
  file_bytes w p = inr bs ->
  read_file fuel w p n
  = (Ret (Some (text_of_bytes bs)), n,
     [Stat p; Stat p; Open p]
     ++ match decode UTF8 bs with Some _ => [] | None => [Open p] end).
Proof.
  intros Hexists Hfile Hsuffix Hbytes.
  cbn [existsb] in Hsuffix. apply orb_false_iff in Hsuffix.
  destruct Hsuffix as [Hpdf Hdoc].
  unfold read_file. rewrite bind_emit, Hexists. cbn [negb].
  rewrite bind_emit, Hfile. cbn [negb]. rewrite Hpdf.
  cbn [existsb]. rewrite Hdoc.
  rewrite (read_text_file_result w p bs Hbytes n). unfold text_of_bytes.
  destruct (decode UTF8 bs); reflexivity.
Qed.

Lemma header_ascii (d : str) :
  In d choices -> forallb ascii (lit "SUMMARY (" ++ upper d ++ lit ")") = true.
Proof.
  intros [<-|[<-|[<-|[]]]]; reflexivity.
Qed.

(** X4.  A plain-text file with some non-blank content, a credential, an
    installed client, a detail level the parser lets through and a service
    that answers with a text standard output can encode: the run sends one
    request for the decoded text, prints the result block - rule,
    "SUMMARY (" with the detail level in upper case, rule, the summary,
    rule - on standard output and nothing else there, and exits with status
    0. *)
Theorem text_file_summary (fuel : nat) (w : World) (args : Args)
    (p v : str) (bs : list byte) (summary : str)
    (Hmode : check_config args = false)
    (Hpath : file_path args = Some p)
    (Hgiven : p <> [])
    (Hdetail : In (detail args) choices)
    (Hset : environ w OPENAI_API_KEY = Some v)
    (Hvalue : v <> [])
    (Hexists : path_exists w p = true)
    (Hfile : path_is_file w p = true)
    (Hsuffix : existsb (str_eqb (lower (path_suffix w p)))
                 [lit ".pdf"; lit ".docx"; lit ".doc"] = false)
    (Hbytes : file_bytes w p = inr bs)
    (Hcontent : forallb isspace (text_of_bytes bs) = false)
    (Himport : importable w Openai 0 = true)
    (Hclient : client_init w v = None)
    (Hanswer : completion w v
                 (request_for (text_of_bytes bs) (detail args) (model args))
               = inr (Some summary))
    (Hprintable : can_encode w summary = true) :
  fst (run (S fuel) w args) = Some 0%Z
  /\ stdout_of (snd (run (S fuel) w args))
     = [ LF :: rule; lit "SUMMARY (" ++ upper (detail args) ++ lit ")";
         rule ++ [LF]; summary; LF :: rule ]
  /\ api_calls (snd (run (S fuel) w args))
     = [request_for (text_of_bytes bs) (detail args) (model args)].
Proof.
  rewrite (run_stages (S fuel) w args p v Hmode Hpath Hgiven Hset Hvalue).
  rewrite (read_file_text (S fuel) w p bs 0 Hexists Hfile Hsuffix Hbytes).
  assert (Hs : truthy (strip (text_of_bytes bs)) = true).
  { destruct (strip (text_of_bytes bs)) eqn:E; [|reflexivity].
    apply strip_nil_iff in E. rewrite E in Hcontent. discriminate Hcontent. }
  rewrite Hs, (summarize_content_ok fuel w _ _ _ v 0 Himport Hclient), Hanswer.
  assert (Hblock : printed w (block_lines (detail args) summary)
                   = (true, map Stdout (block_lines (detail args) summary))).
  { unfold block_lines. cbn [printed map].
    rewrite (can_encode_ascii w (LF :: rule)) by reflexivity.
    rewrite (can_encode_ascii w _ (header_ascii _ Hdetail)).
    rewrite (can_encode_ascii w (rule ++ [LF])) by reflexivity.
    rewrite Hprintable. reflexivity. }
  rewrite Hblock. unfold truncation_note, block_lines.
  destruct (decode UTF8 bs);
    destruct (max_chars <? len (text_of_bytes bs))%N;
    repeat split; reflexivity.
Qed.

Lemma text_file_summary_witness :
  fst (run 1 greeting_world (brief_args (lit "a.txt"))) = Some 0%Z
  /\ stdout_of (snd (run 1 greeting_world (brief_args (lit "a.txt"))))
     = [ LF :: rule; lit "SUMMARY (BRIEF)"; rule ++ [LF]; lit "A greeting.";
         LF :: rule ]
  /\ api_calls (snd (run 1 greeting_world (brief_args (lit "a.txt"))))
     = [request_for [72; 105; 10; 255]%N (lit "brief") (lit "gpt-4o-mini")].
Proof.
  apply (text_file_summary 0 greeting_world (brief_args (lit "a.txt"))
           (lit "a.txt") (lit "sk-1") [x48; x69; x0d; x0a; xff]
           (lit "A greeting.")).
  - reflexivity.
  - reflexivity.
  - vm_compute; discriminate.
  - left; reflexivity.
  - reflexivity.
  - vm_compute; discriminate.
  - reflexivity.
  - reflexivity.
  - reflexivity.
  - reflexivity.
  - reflexivity.
  - reflexivity.
  - reflexivity.
  - reflexivity.
  - reflexivity.
Defined.

(** X5.  When the call to the service raises, or the answer carries no
    text, the run exits with status 1 and prints no result block.  A raised
    error is reported in five lines on the error stream, the first with the
    text of the error; an answer without text is reported by nothing at all:
    the request is the last thing the run does. *)
Theorem summary_failure_exit (fuel : nat) (w : World) (args : Args)
    (p v text : str) (n1 : nat) (t : list event) (res : str + option str)
    (Hmode : check_config args = false)
    (Hpath : file_path args = Some p)
    (Hgiven : p <> [])
    (Hset : environ w OPENAI_API_KEY = Some v)
    (Hvalue : v <> [])
    (Hread : read_file (S fuel) w p 0 = (Ret (Some text), n1, t))
    (Hcontent : forallb isspace text = false)
    (Himport : importable w Openai n1 = true)
    (Hclient : client_init w v = None)
    (Hres : completion w v (request_for text (detail args) (model args)) = res)
    (Hbad : forall summary, res <> inr (Some summary)) :
  run (S fuel) w args
  = (Some 1%Z,
     Stderr (lit "Reading file: " ++ p) :: t
     ++ progress_lines text (detail args) (model args)
     ++ [Import Openai] ++ truncation_note text
     ++ [ApiCall (request_for text (detail args) (model args))]
     ++ match res with inl e => failure_lines e | inr _ => [] end)
  /\ stdout_of (snd (run (S fuel) w args)) = stdout_of t.
Proof.
  assert (Hs : truthy (strip text) = true).
  { destruct (strip text) eqn:E; [|reflexivity].
    apply strip_nil_iff in E. rewrite E in Hcontent. discriminate Hcontent. }
  assert (E : run (S fuel) w args
              = (Some 1%Z,
                 Stderr (lit "Reading file: " ++ p) :: t
                 ++ progress_lines text (detail args) (model args)
                 ++ [Import Openai] ++ truncation_note text
                 ++ [ApiCall (request_for text (detail args) (model args))]
                 ++ match res with inl e => failure_lines e | inr _ => [] end)).
  { rewrite (run_stages (S fuel) w args p v Hmode Hpath Hgiven Hset Hvalue).
    rewrite Hread, Hs.
    rewrite (summarize_content_ok fuel w _ _ _ v n1 Himport Hclient), Hres.
    destruct res as [e|[summary|]];
      [reflexivity | exfalso; exact (Hbad summary eq_refl) | reflexivity]. }
  rewrite E. split; [reflexivity|]. cbn [snd].
  change (Stderr (lit "Reading file: " ++ p) :: t ++ ?x)
    with ([Stderr (lit "Reading file: " ++ p)] ++ t ++ x).
  rewrite !stdout_of_app. unfold truncation_note.
  destruct (max_chars <? len text)%N; destruct res as [e|a]; cbn;
    rewrite app_nil_r; reflexivity.
Qed.

Lemma summary_failure_exit_witness :
  run 1 offline_world (brief_args (lit "a.txt"))
  = (Some 1%Z,
     [ Stderr (lit "Reading file: a.txt");
       Stat (lit "a.txt"); Stat (lit "a.txt");
       Open (lit "a.txt"); Open (lit "a.txt");
       Stderr (lit "File size: 4 characters");
       Stderr (lit "Generating brief summary using gpt-4o-mini...");
       Import Openai;
       ApiCall (request_for [72; 105; 10; 255]%N (lit "brief")
                  (lit "gpt-4o-mini")) ]
     ++ failure_lines (lit "Connection error."))
  /\ stdout_of (snd (run 1 offline_world (brief_args (lit "a.txt")))) = [].
Proof.
  apply (summary_failure_exit 0 offline_world (brief_args (lit "a.txt"))
           (lit "a.txt") (lit "sk-1") [72; 105; 10; 255]%N 0
           [Stat (lit "a.txt"); Stat (lit "a.txt");
            Open (lit "a.txt"); Open (lit "a.txt")]
           (inl (lit "Connection error."))).
  - reflexivity.
  - reflexivity.
  - vm_compute; discriminate.
  - reflexivity.
  - vm_compute; discriminate.
  - reflexivity.
  - reflexivity.
  - reflexivity.
  - reflexivity.
  - reflexivity.
  - intros summary E; discriminate E.
Defined.

(** X6.  In the default mode a missing file-path argument, or an empty one,
    ends the run at once: the usage text goes to standard output and the
    status is 1, whether the credential is set or not; the environment and
    the file system are not consulted. *)
Theorem usage_without_path (fuel : nat) (w : World) (args : Args)
    (Hmode : check_config args = false)
    (Hpath : file_path args = None \/ file_path args = Some []) :
  run fuel w args = (Some 1%Z, [Stdout (help_text w)])
  /\ (forall w',
        help_text w' = help_text w -> run fuel w' args = run fuel w args).
Proof.
  assert (Hp : truthy_opt (file_path args) = false)
    by (destruct Hpath as [-> | ->]; reflexivity).
  split.
  - exact (run_no_path fuel w args Hmode Hp).
  - intros w' Hhelp.
    rewrite (run_no_path fuel w args Hmode Hp),
      (run_no_path fuel w' args Hmode Hp), Hhelp.
    reflexivity.
Qed.

Lemma usage_without_path_witness :
  run 0 ready_world (default_args (Some []))
  = (Some 1%Z, [Stdout (help_text ready_world)]).
Proof.
  apply (proj1 (usage_without_path 0 ready_world (default_args (Some []))
                  eq_refl (or_intror eq_refl))).
Defined.




(** X8.  In the default mode a credential variable set to the empty string
    is treated like a missing one: the four lines of guidance, status 1, no
    file touched. *)
Theorem empty_credential_exit (fuel : nat) (w : World) (args : Args) (p : str)
    (Hmode : check_config args = false)
    (Hpath : file_path args = Some p)
    (Hgiven : p <> [])
    (Hempty : environ w OPENAI_API_KEY = Some []) :
  run fuel w args = (Some 1%Z, guidance)
  /\ file_accesses (snd (run fuel w args)) = [].
Proof.
  assert (E : run fuel w args = (Some 1%Z, guidance)).
  { apply run_no_credential; [exact Hmode | | rewrite Hempty; reflexivity].
    apply truthy_opt_iff. exists p. split; assumption. }
  rewrite E. split; reflexivity.
Qed.

Lemma empty_credential_exit_witness :
  run 0 empty_key_world (default_args (Some (lit "a.txt")))
  = (Some 1%Z, guidance)
  /\ file_accesses
       (snd (run 0 empty_key_world (default_args (Some (lit "a.txt"))))) = [].
Proof.
  apply (empty_credential_exit 0 empty_key_world
           (default_args (Some (lit "a.txt"))) (lit "a.txt")).
  - reflexivity.
  - reflexivity.
  - vm_compute; discriminate.
  - reflexivity.
Defined.

(** ** More on the text reader *)

(** X9.  An error other than a decoding error, such as a file that cannot
    be opened, ends the loop at the first encoding: the file is tried once,
    the error is reported on the error stream and no text is returned. *)
Theorem read_text_file_open_error (w : World) (p e : str) (n : nat)
    (Herror : file_bytes w p = inl e) :
  read_text_file w p n
  = (Ret None, n, [Open p; Stderr (lit "Error reading file: " ++ e)]).
Proof.
  unfold read_text_file, encodings. cbn [try_encodings].
  rewrite bind_emit, Herror. reflexivity.
Qed.

Lemma read_text_file_open_error_witness :
  read_text_file locked_world (lit "a.txt") 0
  = (Ret None, 0,
     [ Open (lit "a.txt");
       Stderr (lit "Error reading file: [Errno 13] Permission denied") ]).
Proof.
  apply (read_text_file_open_error locked_world (lit "a.txt")
           (lit "[Errno 13] Permission denied") 0).
  reflexivity.
Defined.

(** X10.  The encodings listed after Latin-1 play no part: with any other
    entries in their place the reader does the same, and it never opens the
    file more than twice. *)
Theorem encodings_after_latin1_unused (w : World) (p : str)
    (rest : list encoding) (n : nat) :
  try_encodings w p (UTF8 :: LATIN1 :: rest) n = read_text_file w p n
  /\ List.length (file_accesses (snd (read_text_file w p n))) <= 2.
Proof.
  unfold read_text_file, encodings. cbn [try_encodings]. rewrite !bind_emit.
  destruct (file_bytes w p) as [e|bs]; [split; [reflexivity | cbn; lia]|].
  destruct (decode UTF8 bs); [split; [reflexivity | cbn; lia]|].
  rewrite !bind_emit. cbn [decode latin1_decode].
  split; [reflexivity | cbn; lia].
Qed.

(** Arithmetic with the quotients and remainders of the UTF-8 layout. *)
Ltac Zify.zify_post_hook ::= Z.to_euclidean_division_equations.

Ltac decide_tests :=
  repeat match goal with
  | |- context [(?a <=? ?b)%N] =>
    first [ replace (a <=? b)%N with true by (symmetry; apply N.leb_le; lia)
          | replace (a <=? b)%N with false by (symmetry; apply N.leb_gt; lia) ]
  | |- context [(?a <? ?b)%N] =>
    first [ replace (a <? b)%N with true by (symmetry; apply N.ltb_lt; lia)
          | replace (a <? b)%N with false by (symmetry; apply N.ltb_ge; lia) ]
  | |- context [(?a =? ?b)%N] =>
    first [ replace (a =? b)%N with true by (symmetry; apply N.eqb_eq; lia)
          | replace (a =? b)%N with false by (symmetry; apply N.eqb_neq; lia) ]
  end.

(** Decoding undoes the encoding of one scalar value. *)
Lemma utf8_decode_encode_char (c : char) (r : list N) :
  scalar c = true ->
  utf8_decode (utf8_encode_char c ++ r) = option_map (cons c) (utf8_decode r).
Proof.
  unfold scalar, utf8_encode_char. intros Hs.
  assert (Hc : (c < 55296 \/ 57344 <= c < 1114112)%N).
  { apply orb_true_iff in Hs. destruct Hs as [Hs|Hs].
    - left. apply N.ltb_lt; exact Hs.
    - right. apply andb_true_iff in Hs. destruct Hs as [Ha Hb].
      apply N.leb_le in Ha. apply N.ltb_lt in Hb. lia. }
  clear Hs.
  destruct (N.ltb_spec c 128) as [H1|H1];
    [|destruct (N.ltb_spec c 2048) as [H2|H2];
      [|destruct (N.ltb_spec c 65536) as [H3|H3]]];
    cbn [app utf8_decode]; unfold continuation.
  - decide_tests. reflexivity.
  - decide_tests. cbn [andb negb].
    replace ((192 + c / 64 - 192) * 64 + (128 + c mod 64 - 128))%N with c
      by lia.
    reflexivity.
  - assert (Hb : (224 + c / 4096 = 224 -> 160 <= 128 + (c / 64) mod 64)%N)
      by lia.
    assert (Hd : (224 + c / 4096 = 237 -> 128 + (c / 64) mod 64 < 160)%N)
      by lia.
    destruct (N.eqb_spec (224 + c / 4096) 224) as [E1|E1];
      destruct (N.eqb_spec (224 + c / 4096) 237) as [E2|E2];
      try (exfalso; lia);
      decide_tests; cbn [andb negb];
      replace ((224 + c / 4096 - 224) * 4096
               + (128 + (c / 64) mod 64 - 128) * 64
               + (128 + c mod 64 - 128))%N with c by lia;
      reflexivity.
  - destruct (N.eqb_spec (240 + c / 262144) 240) as [E1|E1];
      destruct (N.eqb_spec (240 + c / 262144) 244) as [E2|E2];
      try (exfalso; lia);
      decide_tests; cbn [andb negb];
      replace ((240 + c / 262144 - 240) * 262144
               + (128 + (c / 4096) mod 64 - 128) * 4096
               + (128 + (c / 64) mod 64 - 128) * 64
               + (128 + c mod 64 - 128))%N with c by lia;
      reflexivity.
Qed.

Lemma utf8_decode_encode (s : str) :
  forallb scalar s = true -> utf8_decode (utf8_encode s) = Some s.
Proof.
  induction s as [|c s IH]; [reflexivity|].
  cbn [forallb]. rewrite andb_true_iff. intros [Hc Hs].
  unfold utf8_encode. cbn [flat_map].
  rewrite (utf8_decode_encode_char c _ Hc).
  fold (utf8_encode s). rewrite (IH Hs). reflexivity.
Qed.

(** X11.  A file that holds the UTF-8 encoding of a text is read back as
    that text, with the line endings [\r\n] and [\r] turned into [\n]; the
    file is opened once and nothing is reported. *)
Theorem read_text_file_utf8 (w : World) (p : str) (bs : list byte) (s : str)
    (n : nat)
    (Hbytes : file_bytes w p = inr bs)
    (Hutf8 : map Byte.to_N bs = utf8_encode s)
    (Hscalar : forallb scalar s = true) :
  read_text_file w p n = (Ret (Some (translate_newlines s)), n, [Open p]).
Proof.
  rewrite (read_text_file_result w p bs Hbytes n).
  unfold decode. rewrite Hutf8, (utf8_decode_encode s Hscalar). reflexivity.
Qed.

Lemma read_text_file_utf8_witness :
  read_text_file accent_world (lit "e.txt") 0
  = (Ret (Some [233; 10]%N), 0, [Open (lit "e.txt")]).
Proof.
  apply (read_text_file_utf8 accent_world (lit "e.txt")
           [xc3; xa9; x0d; x0a] [233; 13; 10]%N 0);
    reflexivity.
Defined.

Lemma translate_newlines_bounded (P : char -> Prop) (k : nat) :
  P LF ->
  forall s, List.length s <= k -> Forall P s ->
    Forall P (translate_newlines s)
    /\ List.length (translate_newlines s) <= List.length s.
Proof.
  intros HLF. induction k as [|k IH]; intros s Hlen Hs.
  - destruct s; [split; [constructor | reflexivity] | cbn in Hlen; lia].
  - destruct s as [|c r]; [split; [constructor | reflexivity]|].
    cbn [List.length] in Hlen.
    inversion Hs as [|? ? Hc Hr]; subst.
    cbn [translate_newlines].
    destruct (c =? CR)%N.
    + destruct r as [|c' r']; [split; [repeat constructor; exact HLF | cbn; lia]|].
      inversion Hr as [|? ? Hc' Hr']; subst. cbn [List.length] in Hlen.
      destruct (c' =? LF)%N.
      * destruct (IH r' ltac:(lia) Hr') as [HP HL].
        split; [constructor; assumption | cbn [List.length]; lia].
      * destruct (IH (c' :: r') ltac:(cbn [List.length]; lia) Hr) as [HP HL].
        split; [constructor; assumption | cbn [List.length] in HL |- *; lia].
    + destruct (IH r ltac:(lia) Hr) as [HP HL].
      split; [constructor; assumption | cbn [List.length]; lia].
Qed.

(** X12.  A file that is not valid UTF-8 is read as Latin-1, one character
    per byte: every character of the text is below U+0100 and the text is no
    longer than the file.  So the characters Windows-1252 gives the bytes
    0x80-0x9F, the euro sign among them, never come out of this reader. *)
Theorem fallback_is_latin1 (w : World) (p : str) (bs : list byte) (n : nat)
    (Hbytes : file_bytes w p = inr bs)
    (Hnot_utf8 : decode UTF8 bs = None) :
  exists text,
    read_text_file w p n = (Ret (Some text), n, [Open p; Open p])
    /\ Forall (fun c => (c < 256)%N) text
    /\ List.length text <= List.length bs.
Proof.
  exists (translate_newlines (map Byte.to_N bs)).
  rewrite (read_text_file_result w p bs Hbytes n), Hnot_utf8.
  split; [reflexivity|].
  assert (Hall : Forall (fun c => (c < 256)%N) (map Byte.to_N bs)).
  { apply Forall_forall. intros c Hin. apply in_map_iff in Hin.
    destruct Hin as (b & <- & _). pose proof (Byte.to_N_bounded b). lia. }
  destruct (translate_newlines_bounded (fun c => (c < 256)%N)
              (List.length (map Byte.to_N bs)) ltac:(unfold LF; lia)
              (map Byte.to_N bs) (le_n _) Hall) as [HP HL].
  split; [exact HP|]. rewrite length_map in HL. exact HL.
Qed.

Lemma fallback_is_latin1_witness :
  exists text,
    read_text_file high_byte_world (lit "a.txt") 0
    = (Ret (Some text), 0, [Open (lit "a.txt"); Open (lit "a.txt")])
    /\ Forall (fun c => (c < 256)%N) text
    /\ List.length text <= 1.
Proof.
  apply (fallback_is_latin1 high_byte_world (lit "a.txt") [x81] 0);
    reflexivity.
Defined.

(** ** More on the document readers *)

(** X13.  An error of the PDF or Word library other than an [ImportError]
    is not retried: it is reported on the error stream, nothing is installed
    and no text is returned. *)
Theorem extraction_error_not_retried (fuel : nat) (w : World) (p e : str)
    (n : nat) :
  (importable w PyPDF2 n = true -> pdf_pages w p = inl (OtherError e) ->
   read_pdf (S fuel) w p n
   = (Ret None, n,
      [Import PyPDF2; Open p; Stderr (lit "Error reading PDF: " ++ e)]))
  /\ (importable w Docx n = true ->
      docx_paragraphs w p = inl (OtherError e) ->
      read_docx (S fuel) w p n
      = (Ret None, n,
         [Import Docx; Open p; Stderr (lit "Error reading DOCX: " ++ e)])).
Proof.
  split; intros Himport Herror.
  - cbn [read_pdf]. rewrite bind_try_import, Himport, bind_emit, Herror.
    reflexivity.
  - cbn [read_docx]. rewrite bind_try_import, Himport, bind_emit, Herror.
    reflexivity.
Qed.

Lemma extraction_error_not_retried_witness :
  read_pdf 1 installed_world (lit "a.pdf") 0
  = (Ret None, 0,
     [ Import PyPDF2; Open (lit "a.pdf");
       Stderr (lit "Error reading PDF: Stream has ended unexpectedly") ])
  /\ read_docx 1 installed_world (lit "a.docx") 0
     = (Ret None, 0,
        [ Import Docx; Open (lit "a.docx");
          Stderr (lit "Error reading DOCX: Package not found") ]).
Proof.
  split.
  - apply (proj1 (extraction_error_not_retried 0 installed_world (lit "a.pdf")
                    (lit "Stream has ended unexpectedly") 0));
      reflexivity.
  - apply (proj2 (extraction_error_not_retried 0 installed_world (lit "a.docx")
                    (lit "Package not found") 0));
      reflexivity.
Defined.

Lemma join_blank (parts : list str) :
  Forall (fun part => forallb isspace part = true) parts ->
  forallb isspace (join [LF; LF] parts) = true.
Proof.
  induction parts as [|part rest IH]; intros H; [reflexivity|].
  inversion H as [|? ? Hpart Hrest]; subst.
  destruct rest as [|part' rest']; [exact Hpart|].
  change (join [LF; LF] (part :: part' :: rest'))
    with (part ++ [LF; LF] ++ join [LF; LF] (part' :: rest')).
  rewrite !forallb_app, Hpart, (IH Hrest). reflexivity.
Qed.

(** X15.  A PDF in which no page has any text - no pages at all, or pages
    that are empty or blank - is reported as an empty file: the run prints
    "ERROR: File appears to be empty or unreadable", sends no request and
    exits with status 1. *)
Theorem blank_pdf_exit (fuel : nat) (w : World) (args : Args) (p v : str)
    (pages : list str)
    (Hmode : check_config args = false)
    (Hpath : file_path args = Some p)
    (Hgiven : p <> [])
    (Hset : environ w OPENAI_API_KEY = Some v)
    (Hvalue : v <> [])
    (Hexists : path_exists w p = true)
    (Hfile : path_is_file w p = true)
    (Hsuffix : lower (path_suffix w p) = lit ".pdf")
    (Himport : importable w PyPDF2 0 = true)
    (Hpages : pdf_pages w p = inr pages)
    (Hblank : Forall (fun page => forallb isspace page = true) pages) :
  run (S fuel) w args
  = (Some 1%Z,
     [ Stderr (lit "Reading file: " ++ p); Stat p; Stat p;
       Import PyPDF2; Open p;
       Stderr (lit "ERROR: File appears to be empty or unreadable") ]).
Proof.
  assert (Hread : read_file (S fuel) w p 0
                  = (Ret (Some (join [LF; LF] pages)), 0,
                     [Stat p; Stat p; Import PyPDF2; Open p])).
  { unfold read_file. rewrite bind_emit, Hexists. cbn [negb].
    rewrite bind_emit, Hfile. cbn [negb]. rewrite Hsuffix.
    change (str_eqb (lit ".pdf") (lit ".pdf")) with true. cbv iota.
    cbn [read_pdf]. rewrite bind_try_import, Himport, bind_emit, Hpages.
    reflexivity. }
  rewrite (run_read_blank (S fuel) w args p v Hmode Hpath Hgiven Hset Hvalue
             _ _ _ Hread).
  - reflexivity.
  - apply strip_nil_iff. apply join_blank. exact Hblank.
Qed.

Lemma blank_pdf_exit_witness :
  run 1 scan_world (default_args (Some (lit "SCAN.PDF")))
  = (Some 1%Z,
     [ Stderr (lit "Reading file: SCAN.PDF");
       Stat (lit "SCAN.PDF"); Stat (lit "SCAN.PDF");
       Import PyPDF2; Open (lit "SCAN.PDF");
       Stderr (lit "ERROR: File appears to be empty or unreadable") ]).
Proof.
  apply (blank_pdf_exit 0 scan_world (default_args (Some (lit "SCAN.PDF")))
           (lit "SCAN.PDF") (lit "sk-1") [[]]).
  - reflexivity.
  - reflexivity.
  - vm_compute; discriminate.
  - reflexivity.
  - vm_compute; discriminate.
  - reflexivity.
  - reflexivity.
  - reflexivity.
  - reflexivity.
  - reflexivity.
  - repeat constructor.
Defined.

(** ** More on retrying *)

(** X17.  The two progress lines of an installation go to standard output,
    not to the error stream: an operation whose attempts raised
    [ImportError] [k] times, at the import or in the body, before one did
    not, within the recursion limit, leaves exactly these lines there, [k]
    times over, and nothing else. *)
Theorem install_lines_on_stdout (fuel k : nat) (w : World) (op : operation)
    (n : nat)
    (Hfail : forall i, i < k -> attempt_fails w op (n + i) = true)
    (Hok : attempt_fails w op (n + k) = false)
    (Hfuel : k < fuel) :
  stdout_of (snd (perform fuel w op n))
  = List.concat
      (repeat [ lit "Installing required packages...";
                lit "Dependencies installed successfully." ] k).
Proof.
  replace fuel with (k + S (fuel - S k)) by lia.
  rewrite perform_rounds by exact Hfail.
  rewrite perform_attempt by exact Hok. cbn [prepend snd].
  destruct (rounds_counts w op k n) as (_ & _ & Rs).
  destruct (attempt_events_counts w op (n + k)) as (_ & _ & As).
  destruct (attempt_result_counts w op) as (_ & _ & Bs & _).
  rewrite !stdout_of_app, Rs, As, Bs, !app_nil_r. reflexivity.
Qed.

Lemma install_lines_on_stdout_witness :
  stdout_of (snd (read_pdf 3 slow_install_world (lit "a.pdf") 0))
  = [ lit "Installing required packages...";
      lit "Dependencies installed successfully.";
      lit "Installing required packages...";
      lit "Dependencies installed successfully." ].
Proof.
  apply (install_lines_on_stdout 3 2 slow_install_world
           (ReadPdf (lit "a.pdf")) 0).
  - intros [|[|i]] Hi; [reflexivity | reflexivity | lia].
  - reflexivity.
  - lia.
Defined.

(** ** More on the request *)

Lemma sent_content_bound (c : str) :
  (len (sent_content c) <= 100024)%N
  /\ firstn (N.to_nat 100000) (sent_content c) = firstn (N.to_nat 100000) c.
Proof.
  unfold sent_content, max_chars.
  assert (Hm : List.length truncation_marker = 24) by reflexivity.
  destruct (N.ltb_spec 100000 (len c)) as [H|H].
  - pose proof (len_slice c H) as Hl. unfold max_chars, len in Hl.
    split.
    + unfold len. rewrite length_app, Hm, Nat2N.inj_add, Hl. reflexivity.
    + rewrite firstn_app.
      replace (N.to_nat 100000 - List.length (firstn (N.to_nat 100000) c))
        with 0 by lia.
      rewrite firstn_firstn, Nat.min_id, firstn_0, app_nil_r. reflexivity.
  - split; [lia | reflexivity].
Qed.

(** X18.  Whatever the length of the text, the user message of a request
    is the prefix followed by at most 100,024 characters, and the first
    100,000 characters sent are the first 100,000 characters of the text. *)
Theorem sent_length_bound (fuel : nat) (w : World) (c d m k : str) (n : nat)
    (r : request)
    (Hsent : In r (api_calls (snd (summarize_content fuel w c d m k n)))) :
  exists sent,
    req_messages r
    = [ {| role := lit "system"; content := get_system_prompt d |};
        {| role := lit "user";
           content := lit "Please summarize the following content:"
                      ++ [LF; LF] ++ sent |} ]
    /\ (len sent <= 100024)%N
    /\ firstn (N.to_nat 100000) sent = firstn (N.to_nat 100000) c.
Proof.
  destruct (summarize_content_calls_any fuel w c d m k n) as [E|E];
    rewrite E in Hsent; [destruct Hsent|].
  destruct Hsent as [<-|[]].
  exists (sent_content c). split; [reflexivity | apply sent_content_bound].
Qed.

Lemma sent_length_bound_witness :
  exists sent,
    req_messages (request_for long_text (lit "brief") (lit "gpt-4o-mini"))
    = [ {| role := lit "system"; content := get_system_prompt (lit "brief") |};
        {| role := lit "user";
           content := lit "Please summarize the following content:"
                      ++ [LF; LF] ++ sent |} ]
    /\ (len sent <= 100024)%N
    /\ firstn (N.to_nat 100000) sent = firstn (N.to_nat 100000) long_text.
Proof.
  apply (sent_length_bound 1 ready_world long_text (lit "brief")
           (lit "gpt-4o-mini") (lit "sk-1") 0).
  rewrite (summarize_content_calls 1 0 ready_world long_text (lit "brief")
             (lit "gpt-4o-mini") (lit "sk-1") 0);
    [left; reflexivity | intros i Hi; lia | reflexivity | reflexivity | lia].
Defined.

(** X19.  When the request goes out, the note about truncation, which
    gives the original length, is on the error stream exactly when the text
    is longer than 100,000 characters. *)
Theorem truncation_note_iff (fuel : nat) (w : World) (c d m k : str) (n : nat)
    (Himport : importable w Openai n = true)
    (Hclient : client_init w k = None) :
  In (Stderr (lit "NOTE: File is very large (" ++ str_of_N (len c)
              ++ lit " chars). Truncating to " ++ str_of_N 100000
              ++ lit " chars."))
     (snd (summarize_content (S fuel) w c d m k n))
  <-> (100000 < len c)%N.
Proof.
  rewrite (summarize_content_ok fuel w c d m k n Himport Hclient).
  unfold truncation_note, max_chars. cbn [snd].
  destruct (N.ltb_spec 100000 (len c)) as [H|H].
  - split; [intros _; exact H|]. intros _. right. left. reflexivity.
  - split; [|lia]. intros Hin. exfalso.
    destruct Hin as [E|[E|Hin]]; try discriminate E.
    destruct (completion w k (request_for c d m)) as [e|a]; [|destruct Hin].
    assert (Hhead : forall line,
              In (Stderr line) (failure_lines e) ->
              hd 0%N line <> 78%N).
    { intros line Hl. unfold failure_lines in Hl.
      destruct Hl as [E|[E|[E|[E|[E|[]]]]]]; injection E as <-;
        vm_compute; discriminate. }
    apply (Hhead _ Hin). reflexivity.
Qed.

Lemma truncation_note_iff_witness :
  In (Stderr (lit "NOTE: File is very large (" ++ str_of_N (len long_text)
              ++ lit " chars). Truncating to " ++ str_of_N 100000
              ++ lit " chars."))
     (snd (summarize_content 1 ready_world long_text (lit "brief")
             (lit "gpt-4o-mini") (lit "sk-1") 0))
  <-> (100000 < len long_text)%N.
Proof.
  apply (truncation_note_iff 0 ready_world long_text (lit "brief")
           (lit "gpt-4o-mini") (lit "sk-1") 0);
    reflexivity.
Defined.

(** X20.  Whatever string is given as the detail level, the prompt is one
    of the three instruction texts; it is never empty and always opens with
    "You are a professional summarizer." *)
Theorem get_system_prompt_opening (detail_level : str) :
  (get_system_prompt detail_level = get_system_prompt (lit "brief")
   \/ get_system_prompt detail_level = get_system_prompt (lit "medium")
   \/ get_system_prompt detail_level = get_system_prompt (lit "detailed"))
  /\ firstn 34 (get_system_prompt detail_level)
     = lit "You are a professional summarizer."
  /\ get_system_prompt detail_level <> [].
Proof.
  assert (Hcases :
            get_system_prompt detail_level = get_system_prompt (lit "brief")
            \/ get_system_prompt detail_level = get_system_prompt (lit "medium")
            \/ get_system_prompt detail_level
               = get_system_prompt (lit "detailed")).
  { unfold get_system_prompt at 1 3 5. unfold prompts. cbn [dict_get].
    destruct (str_eqb (lit "brief") detail_level); [left; reflexivity|].
    destruct (str_eqb (lit "medium") detail_level);
      [right; left; reflexivity|].
    destruct (str_eqb (lit "detailed") detail_level);
      [right; right; reflexivity | right; left; reflexivity]. }
  split; [exact Hcases|].
  destruct Hcases as [E|[E|E]]; rewrite E;
    (split; [vm_compute; reflexivity | intros H; vm_compute in H; discriminate H]).
Qed.
